(** * Crowd management backend: capture / inference pipeline

    Shallow embedding of [src/backend/detect.py] and [src/backend/camera.py],
    and of the [/api/count] route of [src/backend/app.py] that reads them.

    - Python floats (the float32 model outputs, the configured threshold) are
      modelled as extended rationals [xfloat]: exact arithmetic on finite
      values, plus NaN and the two infinities, which is what the sanitising
      code ([np.nan_to_num], the comparisons) distinguishes.
    - Python exceptions are the values of [pyexn]; code that may raise returns
      [Exc A].
    - A Python [str] (the camera source, a settings value) is its list of
      code points [pystr]; [int()] on it follows CPython 3.11 and its
      Unicode 14.0 database. Log lines are constant texts, and [print] is
      taken to succeed.
    - The process state touched by the pipeline (the [CameraManager] fields
      and the two module globals [net] / [model_loaded] of detect.py) is one
      record [Gstate]; statements run in a state / trace / exception monad [M].
    - Hardware and the OpenCV model are oracles ([world], [engine_env]):
      what a device answers in one loop iteration.
    - A [with lock:] block is one atomic step; the sequential model executes
      it as such. *)

From Stdlib Require Import ZArith QArith Qround List String Ascii Bool Lia.
Import ListNotations.
Open Scope Z_scope.

(** ** Python values *)

Inductive pyexn :=
| ValueError
| OverflowError
| IndexError
| AttributeError
| ZeroDivisionError
| CvError.            (* cv2.error, a subclass of Exception only *)

Inductive Exc (A : Type) : Type :=
| Ok (a : A)
| Raise (e : pyexn).
Arguments Ok {A} a.
Arguments Raise {A} e.

Definition exc_bind {A B} (m : Exc A) (k : A -> Exc B) : Exc B :=
  match m with
  | Ok a => k a
  | Raise e => Raise e
  end.

Notation "x <-? m ;; k" := (exc_bind m (fun x => k))
  (at level 61, m at next level, right associativity).

(** A Python float: finite (exact), NaN, +inf or -inf. *)
Inductive xfloat :=
| Fin (q : Q)
| NaN
| PInf
| NInf.

(** Strict order on rationals. *)
Definition Qlt_bool (x y : Q) : bool := negb (Qle_bool y x).

(** [a < b] on floats (IEEE: every comparison with NaN is false). *)
Definition xlt (a b : xfloat) : bool :=
  match a, b with
  | Fin x, Fin y => Qlt_bool x y
  | NaN, _ | _, NaN => false
  | NInf, Fin _ | NInf, PInf | Fin _, PInf => true
  | _, _ => false
  end.

(** [a > b] *)
Definition py_gt (a b : xfloat) : bool := xlt b a.

(** [int(q)] for a finite float: truncation toward zero. *)
Definition trunc (q : Q) : Z :=
  if Qle_bool 0 q then Qfloor q else - Qfloor (- q).

(** [int(x)] for a float: NaN raises ValueError, infinities OverflowError. *)
Definition py_int (x : xfloat) : Exc Z :=
  match x with
  | Fin q => Ok (trunc q)
  | NaN => Raise ValueError
  | PInf | NInf => Raise OverflowError
  end.

(** [x * k] for a float and a non-negative integer (numpy broadcasting of
    [np.array([w, h, w, h])]); [inf * 0] is NaN. *)
Definition xscale (x : xfloat) (k : Z) : xfloat :=
  match x with
  | Fin q => Fin (q * inject_Z k)
  | NaN => NaN
  | PInf => if k =? 0 then NaN else if 0 <? k then PInf else NInf
  | NInf => if k =? 0 then NaN else if 0 <? k then NInf else PInf
  end.

(** [np.nan_to_num(x, nan=0, posinf=0, neginf=0)] *)
Definition nan_to_num (x : xfloat) : Q :=
  match x with
  | Fin q => q
  | _ => 0%Q
  end.

(** Python's [min(a, b)] returns [a] unless [b < a]; [max(a, b)] returns
    [a] unless [b > a]. *)
Definition py_min (a b : Q) : Q := if Qlt_bool b a then b else a.
Definition py_max (a b : Q) : Q := if Qlt_bool a b then b else a.

(** [l[i]] with Python's negative indexing. *)
Definition py_getitem {A} (l : list A) (i : Z) : Exc A :=
  let n := Z.of_nat (List.length l) in
  if 0 <=? i then
    match nth_error l (Z.to_nat i) with
    | Some a => Ok a
    | None => Raise IndexError
    end
  else if - n <=? i then
    match nth_error l (Z.to_nat (n + i)) with
    | Some a => Ok a
    | None => Raise IndexError
    end
  else Raise IndexError.

(** ** detect.py *)

Definition CLASSES : list string :=
  ["background"; "aeroplane"; "bicycle"; "bird"; "boat";
   "bottle"; "bus"; "car"; "cat"; "chair"; "cow"; "diningtable";
   "dog"; "horse"; "motorbike"; "person"; "pottedplant"; "sheep";
   "sofa"; "train"; "tvmonitor"]%string.

(** What is drawn on a frame. *)
Inductive mark :=
| Rect (x1 y1 x2 y2 : Z)
| Label (conf : xfloat) (x y : Z)          (* f"Person: {confidence:.2f}" *)
| Banner (text : string) (x y : Z).        (* cv2.putText of a fixed text *)

(** A frame: its shape [(height, width)], the identity of the captured pixel
    buffer, and what has been drawn on it. *)
Record frame := mkFrame {
  height : Z;
  width : Z;
  pixels : nat;
  marks : list mark
}.

Record bbox := mkBbox { x1 : Z; y1 : Z; x2 : Z; y2 : Z }.

(** [{'confidence': float(confidence), 'bbox': {...}}] *)
Record detection := mkDetection {
  confidence : xfloat;
  box : bbox
}.

(** One row [detections[0, 0, i, :]] of the network output: column 1 is the
    class index, column 2 the confidence, columns 3..6 the normalised box. *)
Record candidate := mkCandidate {
  c_class : xfloat;
  c_conf : xfloat;
  c_box : xfloat * xfloat * xfloat * xfloat
}.

(** [int(max(0, min(dim - 1, v)))] *)
Definition clip (dim : Z) (v : Q) : Z :=
  trunc (py_max 0 (py_min (inject_Z (dim - 1)) v)).

(** Lines 99-118: rescale, sanitise, clip, build the detection. *)
Definition mk_detection (w h : Z) (c : candidate) : detection :=
  let '(b0, b1, b2, b3) := c_box c in
  let s0 := nan_to_num (xscale b0 w) in
  let s1 := nan_to_num (xscale b1 h) in
  let s2 := nan_to_num (xscale b2 w) in
  let s3 := nan_to_num (xscale b3 h) in
  mkDetection (c_conf c) (mkBbox (clip w s0) (clip h s1) (clip w s2) (clip h s3)).

(** Lines 121-129: rectangle and confidence label. *)
Definition draw_detection (f : frame) (d : detection) : frame :=
  let b := box d in
  let y := if 15 <? y1 b - 15 then y1 b - 15 else y1 b + 15 in
  mkFrame (height f) (width f) (pixels f)
    (marks f ++ [Rect (x1 b) (y1 b) (x2 b) (y2 b); Label (confidence d) (x1 b) y]).

(** The loop of lines 89-129 over the candidate rows, with its accumulator
    [(count, detections_list, annotated_frame)]. *)
Fixpoint process_candidates (w h : Z) (thr : xfloat) (draw_boxes : bool)
    (cs : list candidate) (acc : Z * list detection * frame)
    : Exc (Z * list detection * frame) :=
  match cs with
  | [] => Ok acc
  | c :: cs' =>
      let '(count, dl, af) := acc in
      if py_gt (c_conf c) thr then
        idx <-? py_int (c_class c) ;;
        if idx <? Z.of_nat (List.length CLASSES) then
          name <-? py_getitem CLASSES idx ;;
          if String.eqb name "person" then
            let d := mk_detection w h c in
            process_candidates w h thr draw_boxes cs'
              (count + 1, dl ++ [d], if draw_boxes then draw_detection af d else af)
          else process_candidates w h thr draw_boxes cs' acc
        else process_candidates w h thr draw_boxes cs' acc
      else process_candidates w h thr draw_boxes cs' acc
  end.

(** ** Process state, effects and the monad *)

(** A Python [str]: its sequence of code points. [pstr] reads an ASCII
    literal. *)
Definition pystr := list Z.

Definition pstr (s : string) : pystr :=
  map (fun a => Z.of_nat (nat_of_ascii a)) (list_ascii_of_string s).

(** [a == b] on str *)
Fixpoint pystr_eqb (a b : pystr) : bool :=
  match a, b with
  | [], [] => true
  | x :: a', y :: b' => (x =? y) && pystr_eqb a' b'
  | _, _ => false
  end.

(** [config.py] values read by the pipeline, and the two module-level flags
    of camera.py. *)
Record config := mkConfig {
  DETECTION_CONFIDENCE : xfloat;
  CAMERA_SOURCE : pystr;
  CAMERA_WIDTH : Z;
  CAMERA_HEIGHT : Z;
  CAMERA_FPS : Z;
  CV2_AVAILABLE : bool;
  CLOUD_MODE : bool
}.

(** What [cv2.VideoCapture] is given: a device index or a path / URL. *)
Inductive source :=
| SrcIndex (i : Z)
| SrcPath (p : pystr).

(** A [cv2.VideoCapture] object. *)
Record Cap := mkCap { cap_src : source; cap_opened : bool }.

(** A loaded [cv2.dnn] network. *)
Record Net := mkNet { net_id : nat }.

(** [cv2.dnn.blobFromImage(image, scalefactor, size, mean)] *)
Record blob := mkBlob {
  blob_image : frame;
  blob_scale : Q;
  blob_size : Z * Z;
  blob_mean : Q
}.

(** The [CameraManager] fields and the globals of detect.py. *)
Record Gstate := mkG {
  cap : option Cap;
  latest_count : Z;
  latest_frame : option frame;
  latest_detections : list detection;
  is_running : bool;
  stop_event : bool;
  net : option Net;
  model_loaded : bool
}.

(** [CameraManager.__init__] together with the module state before
    [load_model()] ran at import. *)
Definition init_state : Gstate :=
  mkG None 0 None [] false false None false.

Definition set_cap (c : option Cap) (s : Gstate) : Gstate :=
  mkG c (latest_count s) (latest_frame s) (latest_detections s)
      (is_running s) (stop_event s) (net s) (model_loaded s).

(** The body of [with self.lock: latest_count = ...; latest_frame = ...;
    latest_detections = ...]. *)
Definition publish (count : Z) (f : frame) (dl : list detection) (s : Gstate)
    : Gstate :=
  mkG (cap s) count (Some f) dl (is_running s) (stop_event s) (net s)
      (model_loaded s).

Definition set_running (r : bool) (stop : bool) (s : Gstate) : Gstate :=
  mkG (cap s) (latest_count s) (latest_frame s) (latest_detections s)
      r stop (net s) (model_loaded s).

Definition set_model (n : Net) (s : Gstate) : Gstate :=
  mkG (cap s) (latest_count s) (latest_frame s) (latest_detections s)
      (is_running s) (stop_event s) (Some n) true.

(** Observable effects. *)
Inductive event :=
| EvOpen (src : source)                 (* cv2.VideoCapture(src) *)
| EvSetProp (prop : string) (v : Z)     (* cap.set(...) *)
| EvRead (src : source)                 (* cap.read() *)
| EvRelease (src : source)              (* cap.release() *)
| EvLoadNet                             (* cv2.dnn.readNetFromCaffe *)
| EvForward                             (* net.setInput; net.forward() *)
| EvPublish (count : Z) (f : frame) (dl : list detection)
| EvSleep (t : Q)                       (* time.sleep(t) *)
| EvThreadStart                         (* threading.Thread(...).start() *)
| EvYield (chunk : string)              (* generator yield *)
| EvLog (msg : string).                 (* print(...) *)

Definition M (A : Type) : Type := Gstate -> Gstate * list event * Exc A.

Definition ret {A} (a : A) : M A := fun s => (s, [], Ok a).

Definition bind {A B} (m : M A) (k : A -> M B) : M B :=
  fun s =>
    match m s with
    | (s1, t1, Ok a) => let '(s2, t2, r) := k a s1 in (s2, t1 ++ t2, r)
    | (s1, t1, Raise e) => (s1, t1, Raise e)
    end.

Notation "x <- m ;; k" := (bind m (fun x => k))
  (at level 61, m at next level, right associativity).
Notation "m ;; k" := (bind m (fun _ : unit => k))
  (at level 61, right associativity).

Definition raise {A} (e : pyexn) : M A := fun s => (s, [], Raise e).
Definition lift {A} (x : Exc A) : M A := fun s => (s, [], x).
Definition get : M Gstate := fun s => (s, [], Ok s).
Definition modify (f : Gstate -> Gstate) : M unit := fun s => (f s, [], Ok tt).
Definition emit (e : event) : M unit := fun s => (s, [e], Ok tt).
Definition log (msg : string) : M unit := emit (EvLog msg).

(** [try: m except Exception as e: h(e)] *)
Definition try_except {A} (m : M A) (h : pyexn -> M A) : M A :=
  fun s =>
    match m s with
    | (s1, t1, Raise e) => let '(s2, t2, r) := h e s1 in (s2, t1 ++ t2, r)
    | res => res
    end.

(** [time.sleep(t)]: a negative length raises ValueError. *)
Definition py_sleep (t : Q) : M unit :=
  if Qlt_bool t 0 then raise ValueError else emit (EvSleep t).

(** [1.0 / n] for an int [n]. *)
Definition py_recip (n : Z) : Exc Q :=
  if n =? 0 then Raise ZeroDivisionError else Ok (1 / inject_Z n)%Q.

(** ** detect.py: load_model and detect_people *)

(** What the file system and OpenCV answer to the model code. *)
Record engine_env := mkEngine {
  prototxt_exists : bool;                    (* os.path.exists(MODEL_PROTOTXT) *)
  weights_exists : bool;                     (* os.path.exists(MODEL_WEIGHTS) *)
  read_net : Exc Net;                        (* cv2.dnn.readNetFromCaffe(...) *)
  forward : Net -> blob -> Exc (list candidate)  (* setInput + forward *)
}.

Definition load_model (env : engine_env) : M bool :=
  try_except
    (if negb (prototxt_exists env) then
       log "Warning: Model prototxt not found" ;; ret false
     else if negb (weights_exists env) then
       log "Warning: Model weights not found" ;; ret false
     else
       emit EvLoadNet ;;
       n <- lift (read_net env) ;;
       modify (set_model n) ;;
       log "MobileNet-SSD model loaded successfully" ;;
       ret true)
    (fun _ => log "Error loading model" ;; ret false).

(** [cv2.resize(frame, (300, 300))]: OpenCV asserts a non-empty source. *)
Definition cv_resize (f : frame) (dw dh : Z) : Exc frame :=
  if (height f =? 0) || (width f =? 0) then Raise CvError
  else Ok (mkFrame dh dw (pixels f) (marks f)).

(** The body of the [try:] block, lines 63-131. *)
Definition detect_body (env : engine_env) (frame0 : frame) (draw_boxes : bool)
    (thr : xfloat) : M (Z * list detection * frame) :=
  st <- get ;;
  loaded <- (if model_loaded st then ret true else load_model env) ;;
  if negb loaded then ret (0, [], frame0) else
  let h := height frame0 in
  let w := width frame0 in
  resized <- lift (cv_resize frame0 300 300) ;;
  let b := mkBlob resized (7843 # 1000000) (300, 300) (255 # 2) in
  st' <- get ;;
  n <- (match net st' with Some n => ret n | None => raise AttributeError end) ;;
  emit EvForward ;;
  rows <- lift (forward env n b) ;;
  let annotated := frame0 in   (* frame.copy() if draw_boxes else frame *)
  lift (process_candidates w h thr draw_boxes rows (0, [], annotated)).

Definition detect_people (cfg : config) (env : engine_env) (frame0 : frame)
    (draw_boxes : bool) (confidence_threshold : option xfloat)
    : M (Z * list detection * frame) :=
  let thr := match confidence_threshold with
             | None => DETECTION_CONFIDENCE cfg
             | Some t => t
             end in
  try_except (detect_body env frame0 draw_boxes thr)
    (fun _ => log "Error in detection" ;; ret (0, [], frame0)).

(** ** Python's [int(s)] on a str

    CPython 3.11, [PyLong_FromUnicodeObject] with base 10: a str that is not
    pure ASCII is first rewritten by
    [_PyUnicode_TransformDecimalAndSpaceToASCII], then [PyLong_FromString]
    parses the ASCII text, which must be consumed entirely. *)

(** [Py_ISSPACE]: the ASCII whitespace [PyLong_FromString] skips. *)
Definition is_ascii_space (c : Z) : bool := ((9 <=? c) && (c <=? 13)) || (c =? 32).

Definition is_ascii_digit (c : Z) : bool := (48 <=? c) && (c <=? 57).

(** [Py_UNICODE_ISSPACE] above ASCII (the Unicode 14.0 database of
    CPython 3.11). *)
Definition unicode_isspace (c : Z) : bool :=
  (c =? 0x85) || (c =? 0xa0) || (c =? 0x1680) || ((0x2000 <=? c) && (c <=? 0x200a)) ||
  (c =? 0x2028) || (c =? 0x2029) || (c =? 0x202f) || (c =? 0x205f) || (c =? 0x3000).

(** The digit zeros of the non-ASCII decimal digits (category Nd, Unicode
    14.0): each is followed by the digits one to nine. *)
Definition decimal_zeros : list Z :=
  [0x660; 0x6f0; 0x7c0; 0x966; 0x9e6; 0xa66; 0xae6; 0xb66; 0xbe6; 0xc66;
   0xce6; 0xd66; 0xde6; 0xe50; 0xed0; 0xf20; 0x1040; 0x1090; 0x17e0; 0x1810;
   0x1946; 0x19d0; 0x1a80; 0x1a90; 0x1b50; 0x1bb0; 0x1c40; 0x1c50; 0xa620;
   0xa8d0; 0xa900; 0xa9d0; 0xa9f0; 0xaa50; 0xabf0; 0xff10; 0x104a0; 0x10d30;
   0x11066; 0x110f0; 0x11136; 0x111d0; 0x112f0; 0x11450; 0x114d0; 0x11650;
   0x116c0; 0x11730; 0x118e0; 0x11950; 0x11c50; 0x11d50; 0x11da0; 0x16a60;
   0x16ac0; 0x16b50; 0x1d7ce; 0x1d7d8; 0x1d7e2; 0x1d7ec; 0x1d7f6; 0x1e140;
   0x1e2f0; 0x1e950; 0x1fbf0].

(** [Py_UNICODE_TODECIMAL] above ASCII: [None] for -1. *)
Definition unicode_todecimal (c : Z) : option Z :=
  match find (fun z => (z <=? c) && (c <? z + 10)) decimal_zeros with
  | Some z => Some (c - z)
  | None => None
  end.

(** [_PyUnicode_TransformDecimalAndSpaceToASCII] on a str that is not pure
    ASCII: code points below 127 are copied, whitespace becomes [' '], a
    decimal digit its ASCII digit, and the first other code point becomes
    ['?'] and ends the copy. *)
Fixpoint transform_decimal_and_space (s : pystr) : pystr :=
  match s with
  | [] => []
  | c :: s' =>
      if c <? 127 then c :: transform_decimal_and_space s'
      else if unicode_isspace c then 32 :: transform_decimal_and_space s'
      else match unicode_todecimal c with
           | Some d => (48 + d) :: transform_decimal_and_space s'
           | None => [63]
           end
  end.

Fixpoint skip_spaces (l : pystr) : pystr :=
  match l with
  | c :: l' => if is_ascii_space c then skip_spaces l' else l
  | [] => []
  end.

(** The digit scan of [long_from_non_binary_base], after a first digit:
    digits with single underscores between them. It returns the value, the
    number of digits and the text after them; a doubled or trailing
    underscore is an error. *)
Fixpoint scan_digits (l : pystr) (acc n : Z) : option (Z * Z * pystr) :=
  match l with
  | [] => Some (acc, n, [])
  | c :: l' =>
      if is_ascii_digit c then scan_digits l' (acc * 10 + (c - 48)) (n + 1)
      else if c =? 95 then
        match l' with
        | d :: l'' => if is_ascii_digit d then scan_digits l'' (acc * 10 + (d - 48)) (n + 1)
                      else None
        | [] => None
        end
      else Some (acc, n, l)
  end.

(** [sys.get_int_max_str_digits()], at its default. *)
Definition int_max_str_digits : Z := 4300.

(** [PyLong_FromString(buffer, &end, 10)] with [end] required to reach the
    end of the buffer: leading ASCII whitespace, an optional sign, a digit,
    the digit scan, at most [int_max_str_digits] digits, then only ASCII
    whitespace. [None] is the ValueError. *)
Definition long_from_string (l : pystr) : option Z :=
  let l1 := skip_spaces l in
  let '(sign, l2) := match l1 with
                     | c :: r => if c =? 43 then (1, r)
                                 else if c =? 45 then (-1, r) else (1, l1)
                     | [] => (1, l1)
                     end in
  match l2 with
  | d :: r =>
      if is_ascii_digit d then
        match scan_digits r (d - 48) 1 with
        | Some (v, n, rest) =>
            if (n <=? int_max_str_digits) && forallb is_ascii_space rest
            then Some (sign * v) else None
        | None => None
        end
      else None
  | [] => None
  end.

(** [int(s)]: [None] stands for the ValueError it raises. *)
Definition py_int_of_string (s : pystr) : option Z :=
  long_from_string
    (if forallb (fun c => c <? 128) s then s else transform_decimal_and_space s).

(** ** camera.py *)

(** What the other threads, the hardware and the model answer during one
    iteration of the capture loop. [w_stop] is the value of
    [self.stop_event.is_set()] at the loop test: the event is set by
    [stop()] and cleared by [start()], both run by other threads; the loop
    itself never writes it. *)
Record world := mkWorld {
  w_stop : bool;
  w_opens : source -> bool;           (* VideoCapture(src).isOpened() *)
  w_read : source -> option frame;    (* cap.read() on an opened capture *)
  w_engine : engine_env
}.

(** A C [int], to which OpenCV's binding converts an index argument. *)
Definition c_int_range (i : Z) : bool := (- 2 ^ 31 <=? i) && (i <? 2 ^ 31).

(** A lone surrogate: a str holding one has no UTF-8 encoding. *)
Definition is_surrogate (c : Z) : bool := (0xd800 <=? c) && (c <=? 0xdfff).

(** Whether the binding of [cv2.VideoCapture] can convert its argument: an
    int to a C [int], a str to UTF-8. *)
Definition source_convertible (src : source) : bool :=
  match src with
  | SrcIndex i => c_int_range i
  | SrcPath p => negb (existsb is_surrogate p)
  end.

(** [cv2.VideoCapture(src)]: an argument that fits none of the constructor's
    overloads raises [cv2.error] ("Overload resolution failed") before any
    device is opened. *)
Definition video_capture (w : world) (src : source) : M Cap :=
  if source_convertible src then
    emit (EvOpen src) ;; ret (mkCap src (w_opens w src))
  else raise CvError.

(** [ret, frame = cap.read()]; [None] is [ret] false or [frame] None. *)
Definition cap_read (w : world) (c : Cap) : M (option frame) :=
  emit (EvRead (cap_src c)) ;;
  ret (if cap_opened c then w_read w (cap_src c) else None).

(** [self.cap.release()]: the object stays referenced, closed. *)
Definition cap_release (c : Cap) : M unit :=
  emit (EvRelease (cap_src c)) ;;
  modify (set_cap (Some (mkCap (cap_src c) false))).

Definition cap_is_open (c : option Cap) : bool :=
  match c with
  | Some c => cap_opened c
  | None => false
  end.

(** The [for index in [camera_index, 0, 1, 2]] loop, lines 48-68. *)
Fixpoint try_indices (cfg : config) (w : world) (l : list Z) : M bool :=
  match l with
  | [] => log "Failed to initialize any camera" ;; ret false
  | i :: rest =>
      log "Attempting to open camera at index" ;;
      c <- video_capture w (SrcIndex i) ;;
      modify (set_cap (Some c)) ;;
      if cap_opened c then
        emit (EvSetProp "CAP_PROP_FRAME_WIDTH" (CAMERA_WIDTH cfg)) ;;
        emit (EvSetProp "CAP_PROP_FRAME_HEIGHT" (CAMERA_HEIGHT cfg)) ;;
        emit (EvSetProp "CAP_PROP_FPS" (CAMERA_FPS cfg)) ;;
        r <- cap_read w c ;;
        match r with
        | Some _ => log "Camera initialized successfully at index" ;; ret true
        | None =>
            cap_release c ;;
            log "Camera opened but cannot read frames" ;;
            try_indices cfg w rest
        end
      else try_indices cfg w rest
  end.

Definition initialize_camera (cfg : config) (w : world) : M bool :=
  if CLOUD_MODE cfg then
    log "Running in CLOUD_MODE - camera hardware disabled" ;; ret true
  else
    st <- get ;;
    if cap_is_open (cap st) then ret true else
    try_except
      (match py_int_of_string (CAMERA_SOURCE cfg) with
       | Some camera_index => try_indices cfg w [camera_index; 0; 1; 2]
       | None => raise ValueError
       end)
      (fun e =>
         match e with
         | ValueError =>
             log "Attempting to open camera from source" ;;
             c <- video_capture w (SrcPath (CAMERA_SOURCE cfg)) ;;
             modify (set_cap (Some c)) ;;
             if cap_opened c then
               log "Camera initialized successfully" ;; ret true
             else
               log "Failed to open camera" ;; ret false
         | e => raise e
         end).


Definition release_camera : M unit :=
  st <- get ;;
  match cap st with
  | Some c => cap_release c ;; modify (set_cap None)
  | None => ret tt
  end.

Definition start : M unit :=
  st <- get ;;
  if is_running st then ret tt else
  modify (set_running true false) ;;
  emit EvThreadStart ;;
  log "Camera background thread started".

(** The mock frame of lines 109-112: [np.zeros((480, 640, 3))] with a
    banner when OpenCV is present. *)
Definition mock_frame (cfg : config) : frame :=
  mkFrame 480 640 0
    (if CV2_AVAILABLE cfg then [Banner "CLOUD MODE - No Camera" 120 240] else []).

(** One iteration of the [while] body of [_run_capture], lines 106-148. *)
Definition capture_iter (cfg : config) (w : world) : M unit :=
  if CLOUD_MODE cfg then
    let mf := mock_frame cfg in
    modify (publish 0 mf []) ;;
    emit (EvPublish 0 mf []) ;;
    py_sleep 1%Q
  else
    st <- get ;;
    ok <- (if cap_is_open (cap st) then ret true else initialize_camera cfg w) ;;
    if negb ok then py_sleep 1%Q else
    st1 <- get ;;
    c <- (match cap st1 with Some c => ret c | None => raise AttributeError end) ;;
    r <- cap_read w c ;;
    match r with
    | None =>
        log "Error reading frame, attempting to reconnect..." ;;
        release_camera ;;
        py_sleep 1%Q
    | Some fr =>
        try_except
          (res <- detect_people cfg (w_engine w) fr true None ;;
           let '(count, dl, af) := res in
           modify (publish count af dl) ;;
           emit (EvPublish count af dl))
          (fun _ => log "Error in background detection") ;;
        d <- lift (py_recip (CAMERA_FPS cfg)) ;;
        py_sleep d
    end.

Inductive loop_status := Exited | StillRunning.

(** [while not self.stop_event.is_set(): ...] over the iterations for
    which the environment is given. *)
Fixpoint run_capture (cfg : config) (ws : list world) : M loop_status :=
  match ws with
  | [] => ret StillRunning
  | w :: ws' =>
      if w_stop w then ret Exited else
      capture_iter cfg w ;;
      run_capture cfg ws'
  end.

Definition get_count : M Z := st <- get ;; ret (latest_count st).
Definition get_frame : M (option frame) := st <- get ;; ret (latest_frame st).
Definition get_detections : M (list detection) :=
  st <- get ;; ret (latest_detections st).

(** [CameraManager.stop], lines 94-101. [self.thread.join(timeout=1.0)]
    only waits for the worker thread; it writes none of the fields modelled
    here, so it has no step of its own in this sequential model. *)
Definition stop : M unit :=
  modify (set_running false true) ;;   (* is_running = False; stop_event.set() *)
  release_camera ;;
  log "Camera background thread stopped".

(** The module-level functions of lines 209-230 on [camera_manager]. *)
Module camera.

Definition get_count : M Z :=
  st <- get ;;
  (if negb (is_running st) then start else ret tt) ;;
  get_count.

Definition get_detections : M (list detection) := get_detections.

Definition start_camera : M unit := start.

Definition stop_camera : M unit := stop.

End camera.

(** The number of threads started in a trace. *)
Fixpoint thread_starts (tr : list event) : nat :=
  match tr with
  | [] => O
  | EvThreadStart :: tr' => S (thread_starts tr')
  | _ :: tr' => thread_starts tr'
  end.

(** ** app.py: the [/api/count] route, lines 49-85

    The database rows the route reads and writes. The database itself is
    taken to be available: [Settings.query...first()], [db.session.add] and
    [db.session.commit()] succeed; the added rows become visible at the
    commit, and [db.session.rollback()] discards them. *)
Record db := mkDb {
  settings_rows : list (pystr * pystr);     (* Settings(key, value) *)
  count_logs : list Z;                      (* CountLog.people_count *)
  alert_logs : list (Z * Z)                 (* AlertLog(people_count, threshold) *)
}.

(** The JSON response: 200 with its fields, or 500 with
    ['Error getting count: ' + str(e)]. *)
Inductive count_response :=
| CountOk (count threshold : Z) (alert : bool) (detections : list detection)
    (timestamp : string)
| CountError (e : pyexn).

(** [Settings.query.filter_by(key=key).first()], its [value] *)
Definition setting_value (rows : list (pystr * pystr)) (key : pystr) : option pystr :=
  option_map snd (find (fun kv => pystr_eqb (fst kv) key) rows).

(** [count_route] after the [token_required] check; [THRESHOLD] is
    [config.THRESHOLD], [now] the value of [datetime.utcnow().isoformat()]. *)
Definition count_route (THRESHOLD : Z) (now : string) (d : db)
    : M (db * count_response) :=
  try_except
    (people_count <- camera.get_count ;;
     detections <- camera.get_detections ;;
     threshold <- (match setting_value (settings_rows d) (pstr "crowd_threshold") with
                   | Some v => match py_int_of_string v with
                               | Some t => ret t
                               | None => raise ValueError
                               end
                   | None => ret THRESHOLD
                   end) ;;
     let alert := threshold <? people_count in
     let d' := mkDb (settings_rows d) (count_logs d ++ [people_count])
                 (if alert then alert_logs d ++ [(people_count, threshold)]
                  else alert_logs d) in
     ret (d', CountOk people_count threshold alert detections now))
    (fun e => ret (d, CountError e)).

(** ** generate_frames *)

Definition crlf : string := String (ascii_of_nat 13) (String (ascii_of_nat 10) EmptyString).

(** [b'--frame\r\n' b'Content-Type: image/jpeg\r\n\r\n' + frame_bytes + b'\r\n'] *)
Definition mk_chunk (frame_bytes : string) : string :=
  ("--frame" ++ crlf ++ "Content-Type: image/jpeg" ++ crlf ++ crlf
   ++ frame_bytes ++ crlf)%string.

(** One iteration of the generator's [while True] body: [g_publish] is a
    publication the worker thread completed since the previous iteration,
    [g_encode] the answer of [cv2.imencode('.jpg', frame)] ([None] is
    [ret] false). [cv2] is always bound here: camera.py imports detect.py,
    whose first line is an unconditional [import cv2]. *)
Record gen_world := mkGenWorld {
  g_publish : option (Z * frame * list detection);
  g_encode : frame -> option string
}.

Definition gen_iter (cfg : config) (gw : gen_world) : M unit :=
  (match g_publish gw with
   | Some (c, f, dl) => modify (publish c f dl)
   | None => ret tt
   end) ;;
  st <- get ;;
  (if negb (is_running st) then start else ret tt) ;;
  st1 <- get ;;
  match latest_frame st1 with
  | None => py_sleep (1 # 10)
  | Some f =>
      match g_encode gw f with
      | None => py_sleep (1 # 10)
      | Some frame_bytes =>
          emit (EvYield (mk_chunk frame_bytes)) ;;
          d <- lift (py_recip (CAMERA_FPS cfg)) ;;
          py_sleep d
      end
  end.

Fixpoint run_gen (cfg : config) (gws : list gen_world) : M unit :=
  match gws with
  | [] => ret tt
  | gw :: gws' => gen_iter cfg gw ;; run_gen cfg gws'
  end.

(** The chunks handed to the consumer. *)
Fixpoint yields (tr : list event) : list string :=
  match tr with
  | [] => []
  | EvYield c :: tr' => c :: yields tr'
  | _ :: tr' => yields tr'
  end.

(** ** Interleaving of the worker and the readers of the shared state

    Each [with self.lock:] block is one atomic action: the worker's
    publication of lines 140-143, and the single-field reads of [get_count],
    [get_frame] and [get_detections]. A thread is the list of its locked
    actions; a schedule says which thread performs its next action. *)

Inductive action :=
| APublish (count : Z) (f : frame) (dl : list detection)
| AGetCount
| AGetFrame
| AGetDetections.

Inductive obs :=
| OCount (c : Z)
| OFrame (f : option frame)
| ODetections (dl : list detection).

Definition step_action (a : action) (s : Gstate) : Gstate * option obs :=
  match a with
  | APublish c f dl => (publish c f dl s, None)
  | AGetCount => (s, Some (OCount (latest_count s)))
  | AGetFrame => (s, Some (OFrame (latest_frame s)))
  | AGetDetections => (s, Some (ODetections (latest_detections s)))
  end.

(** Remove thread [i]'s next action. *)
Fixpoint pop_action (i : nat) (ths : list (list action))
    : option (action * list (list action)) :=
  match ths, i with
  | [], _ => None
  | (a :: t) :: ths', O => Some (a, t :: ths')
  | [] :: _, O => None
  | t :: ths', S i' =>
      match pop_action i' ths' with
      | Some (a, r) => Some (a, t :: r)
      | None => None
      end
  end.

(** Run a schedule; the result is the final state, the executed actions and
    what each reader observed, tagged with its thread. *)
Fixpoint run_sched (ths : list (list action)) (sched : list nat) (s : Gstate)
    : Gstate * list action * list (nat * obs) :=
  match sched with
  | [] => (s, [], [])
  | i :: sched' =>
      match pop_action i ths with
      | None => run_sched ths sched' s
      | Some (a, ths') =>
          let '(s1, o) := step_action a s in
          let '(s2, done, os) := run_sched ths' sched' s1 in
          (s2, a :: done,
           match o with Some o => (i, o) :: os | None => os end)
      end
  end.

(** The shared triple after a sequence of actions: the last publication, or
    the one held before. *)
Fixpoint last_published (done : list action) (prev : Z * option frame * list detection)
    : Z * option frame * list detection :=
  match done with
  | [] => prev
  | APublish c f dl :: done' => last_published done' (c, Some f, dl)
  | _ :: done' => last_published done' prev
  end.

Definition shared_triple (s : Gstate) : Z * option frame * list detection :=
  (latest_count s, latest_frame s, latest_detections s).

(** The readers of [/api/count]'s [count_route]: [get_count()] then
    [get_detections()]. *)
Definition count_route_thread : list action := [AGetCount; AGetDetections].

(** The reading the spec gives: each read returns the field of the most
    recent completed publication (or of the state held before any). *)
Fixpoint reads_of_last (done : list action)
    (cur : Z * option frame * list detection) : list obs :=
  match done with
  | [] => []
  | APublish c f dl :: done' => reads_of_last done' (c, Some f, dl)
  | AGetCount :: done' =>
      let '(c, _, _) := cur in OCount c :: reads_of_last done' cur
  | AGetFrame :: done' =>
      let '(_, f, _) := cur in OFrame f :: reads_of_last done' cur
  | AGetDetections :: done' =>
      let '(_, _, dl) := cur in ODetections dl :: reads_of_last done' cur
  end.

(** ** The acceptance test, as the spec words it *)

(** "the class index maps to the class person": [CLASSES[int(k)]] is
    ["person"] under Python indexing. *)
Definition class_is_person (k : xfloat) : bool :=
  match py_int k with
  | Ok idx =>
      match py_getitem CLASSES idx with
      | Ok n => String.eqb n "person"
      | Raise _ => false
      end
  | Raise _ => false
  end.

Definition accepted (thr : xfloat) (c : candidate) : bool :=
  py_gt (c_conf c) thr && class_is_person (c_class c).

(** The bounds of a detection in a [w] x [h] frame, above threshold [thr]. *)
Definition in_bounds (w h : Z) (thr : xfloat) (d : detection) : Prop :=
  0 <= x1 (box d) <= w - 1 /\ 0 <= x2 (box d) <= w - 1 /\
  0 <= y1 (box d) <= h - 1 /\ 0 <= y2 (box d) <= h - 1 /\
  py_gt (confidence d) thr = true.

(** ** Lemmas on the Python-value layer *)

Lemma Qlt_bool_iff (x y : Q) : Qlt_bool x y = true <-> (x < y)%Q.
Proof.
  unfold Qlt_bool. rewrite negb_true_iff. split; intro H.
  - apply Qnot_le_lt. intro H'. apply Qle_bool_iff in H'. congruence.
  - destruct (Qle_bool y x) eqn:E; [|reflexivity].
    apply Qle_bool_iff in E. exfalso. apply (Qlt_not_le x y); assumption.
Qed.

Lemma py_min_le (a b : Q) : (py_min a b <= a)%Q.
Proof.
  unfold py_min. destruct (Qlt_bool b a) eqn:E.
  - apply Qlt_le_weak, Qlt_bool_iff, E.
  - apply Qle_refl.
Qed.

Lemma py_max0_nonneg (m : Q) : (0 <= py_max 0 m)%Q.
Proof.
  unfold py_max. destruct (Qlt_bool 0 m) eqn:E.
  - apply Qlt_le_weak, Qlt_bool_iff, E.
  - apply Qle_refl.
Qed.

Lemma py_max0_le (a m : Q) : (0 <= a)%Q -> (m <= a)%Q -> (py_max 0 m <= a)%Q.
Proof. unfold py_max. destruct (Qlt_bool 0 m); auto. Qed.

Lemma clip_bounds (dim : Z) (v : Q) : 1 <= dim -> 0 <= clip dim v <= dim - 1.
Proof.
  intro Hd. unfold clip.
  set (p := py_max 0 (py_min (inject_Z (dim - 1)) v)).
  assert (H0 : (0 <= p)%Q) by apply py_max0_nonneg.
  assert (H1 : (p <= inject_Z (dim - 1))%Q).
  { apply py_max0_le; [|apply py_min_le].
    change 0%Q with (inject_Z 0). rewrite <- Zle_Qle. lia. }
  unfold trunc. replace (Qle_bool 0 p) with true by (symmetry; apply Qle_bool_iff, H0).
  split.
  - rewrite <- (Qfloor_Z 0). apply Qfloor_resp_le. exact H0.
  - rewrite <- (Qfloor_Z (dim - 1)). apply Qfloor_resp_le. exact H1.
Qed.

Lemma mk_detection_bounds (w h : Z) (thr : xfloat) (c : candidate) :
  1 <= w -> 1 <= h -> py_gt (c_conf c) thr = true ->
  in_bounds w h thr (mk_detection w h c).
Proof.
  intros Hw Hh Hc. destruct c as [k conf [[[b0 b1] b2] b3]].
  unfold in_bounds, mk_detection; cbn [c_box c_conf box x1 x2 y1 y2 confidence].
  repeat split; try apply clip_bounds; auto.
Qed.

(** [CLASSES[idx]] with [0 <= idx < 21] never raises; beyond it always does. *)
Lemma getitem_CLASSES_high (idx : Z) :
  Z.of_nat (List.length CLASSES) <= idx -> py_getitem CLASSES idx = Raise IndexError.
Proof.
  intro H. unfold py_getitem.
  replace (0 <=? idx) with true by (symmetry; apply Z.leb_le; cbn in *; lia).
  assert (E : nth_error CLASSES (Z.to_nat idx) = None)
    by (apply nth_error_None; cbn in *; lia).
  rewrite E. reflexivity.
Qed.

Lemma process_candidates_spec (w h : Z) (thr : xfloat) (draw_boxes : bool)
    (cs : list candidate) :
  forall c0 dl0 f0 r,
    process_candidates w h thr draw_boxes cs (c0, dl0, f0) = Ok r ->
    fst (fst r) = c0 + Z.of_nat (List.length (filter (accepted thr) cs)) /\
    snd (fst r) = dl0 ++ map (mk_detection w h) (filter (accepted thr) cs).
Proof.
  induction cs as [|c cs IH]; intros c0 dl0 f0 r H; cbn in H.
  - injection H as <-. cbn. split; [lia | symmetry; apply app_nil_r].
  - cbn [filter].
    replace (accepted thr c)
      with (py_gt (c_conf c) thr && class_is_person (c_class c)) by reflexivity.
    destruct (py_gt (c_conf c) thr) eqn:G; cbn [andb].
    2: apply (IH _ _ _ _ H).
    unfold class_is_person. destruct (py_int (c_class c)) as [idx|e] eqn:I;
      cbn in H; [|discriminate].
    destruct (idx <? 21) eqn:L.
    + destruct (py_getitem CLASSES idx) as [nm|e] eqn:Gi; cbn in H; [|discriminate].
      destruct (String.eqb nm "person") eqn:P.
      * destruct (IH _ _ _ _ H) as [H1 H2]. cbn [List.length map].
        rewrite H1, H2. split; [lia | rewrite <- app_assoc; reflexivity].
      * apply (IH _ _ _ _ H).
    + apply Z.ltb_ge in L. rewrite (getitem_CLASSES_high idx L).
      apply (IH _ _ _ _ H).
Qed.

Lemma process_candidates_bounds (w h : Z) (thr : xfloat) (draw_boxes : bool)
    (cs : list candidate) :
  1 <= w -> 1 <= h ->
  forall acc r,
    Forall (in_bounds w h thr) (snd (fst acc)) ->
    process_candidates w h thr draw_boxes cs acc = Ok r ->
    Forall (in_bounds w h thr) (snd (fst r)).
Proof.
  intros Hw Hh. induction cs as [|c cs IH]; intros [[c0 dl0] f0] r Hacc H; cbn in H.
  - injection H as <-. exact Hacc.
  - destruct (py_gt (c_conf c) thr) eqn:G.
    2: apply (IH _ _ Hacc H).
    destruct (py_int (c_class c)) as [idx|e]; cbn in H; [|discriminate].
    destruct (idx <? 21).
    2: apply (IH _ _ Hacc H).
    destruct (py_getitem CLASSES idx) as [nm|e]; cbn in H; [|discriminate].
    destruct (String.eqb nm "person").
    2: apply (IH _ _ Hacc H).
    refine (IH _ _ _ H). cbn. apply Forall_app. split; [exact Hacc|].
    constructor; [apply mk_detection_bounds; assumption | constructor].
Qed.

(** A candidate of class 15 ("person") with confidence [q] and an empty box. *)
Definition person_at (q : Q) : candidate :=
  mkCandidate (Fin 15) (Fin q) (Fin 0, Fin 0, Fin 0, Fin 0).

(** ** Claims about the candidate loop *)

(** C8: when the candidate loop of [detect_people] completes, it has
    counted and appended exactly the candidates whose confidence is strictly
    above the threshold and whose class index maps to "person", in order; at
    threshold 0.5 candidates at 0.49 and at exactly 0.5 are skipped and one
    at 0.51 is kept. *)
Theorem C8_accept_iff_above_threshold_and_person (w h : Z) (thr : xfloat)
    (draw_boxes : bool) (cs : list candidate) (f : frame) (count : Z)
    (dl : list detection) (af : frame) :
  process_candidates w h thr draw_boxes cs (0, [], f) = Ok (count, dl, af) ->
  count = Z.of_nat (List.length (filter (accepted thr) cs)) /\
  dl = map (mk_detection w h) (filter (accepted thr) cs) /\
  exists af',
    process_candidates w h (Fin (1 # 2)) draw_boxes
      [person_at (49 # 100); person_at (51 # 100); person_at (1 # 2)] (0, [], f)
    = Ok (1, [mk_detection w h (person_at (51 # 100))], af').
Proof.
  intro H. destruct (process_candidates_spec _ _ _ _ _ _ _ _ _ H) as [H1 H2].
  cbn [fst snd] in H1, H2. split; [lia|]. split; [exact H2|].
  eexists. vm_compute. reflexivity.
Qed.

Lemma C8_witness :
  process_candidates 100 100 (Fin (1 # 2)) false [person_at (9 # 10)]
    (0, [], mkFrame 100 100 1 []) =
    Ok (1, [mk_detection 100 100 (person_at (9 # 10))], mkFrame 100 100 1 []) /\
  (1 = Z.of_nat (List.length (filter (accepted (Fin (1 # 2))) [person_at (9 # 10)])) /\
   [mk_detection 100 100 (person_at (9 # 10))] =
     map (mk_detection 100 100) (filter (accepted (Fin (1 # 2))) [person_at (9 # 10)]) /\
   exists af',
     process_candidates 100 100 (Fin (1 # 2)) false
       [person_at (49 # 100); person_at (51 # 100); person_at (1 # 2)]
       (0, [], mkFrame 100 100 1 [])
     = Ok (1, [mk_detection 100 100 (person_at (51 # 100))], af')).
Proof.
  split; [vm_compute; reflexivity|].
  apply (C8_accept_iff_above_threshold_and_person 100 100 (Fin (1 # 2)) false
           [person_at (9 # 10)] (mkFrame 100 100 1 []) 1
           [mk_detection 100 100 (person_at (9 # 10))] (mkFrame 100 100 1 [])).
  vm_compute. reflexivity.
Defined.

(** C10: the class filter only tests [idx < len(CLASSES)], so a negative
    class index is looked up from the end of [CLASSES]: a candidate of class
    index -6 ([CLASSES[-6]] is "person") above the threshold is counted and
    its detection appended. *)
Theorem C10_negative_class_index_counted (w h : Z) (thr conf : xfloat)
    (b : xfloat * xfloat * xfloat * xfloat) (draw_boxes : bool) (f : frame) :
  py_gt conf thr = true ->
  let c := mkCandidate (Fin (-6)) conf b in
  process_candidates w h thr draw_boxes [c] (0, [], f) =
    Ok (1, [mk_detection w h c],
        if draw_boxes then draw_detection f (mk_detection w h c) else f).
Proof.
  intros Hc c. subst c. cbn -[py_gt mk_detection draw_detection]. rewrite Hc. reflexivity.
Qed.

Lemma C10_witness :
  py_gt (Fin (9 # 10)) (Fin (1 # 2)) = true /\
  process_candidates 640 480 (Fin (1 # 2)) false
    [mkCandidate (Fin (-6)) (Fin (9 # 10)) (Fin (1 # 10), Fin (1 # 10), Fin (1 # 2), Fin (1 # 2))]
    (0, [], mkFrame 480 640 1 []) =
  Ok (1, [mk_detection 640 480
            (mkCandidate (Fin (-6)) (Fin (9 # 10)) (Fin (1 # 10), Fin (1 # 10), Fin (1 # 2), Fin (1 # 2)))],
      mkFrame 480 640 1 []).
Proof.
  split; [reflexivity|].
  exact (C10_negative_class_index_counted 640 480 (Fin (1 # 2)) (Fin (9 # 10))
           (Fin (1 # 10), Fin (1 # 10), Fin (1 # 2), Fin (1 # 2)) false
           (mkFrame 480 640 1 []) eq_refl).
Defined.

(** ** Monad lemmas *)

Lemma bind_inv {A B} (m : M A) (k : A -> M B) s s' t b :
  bind m k s = (s', t, Ok b) ->
  exists s1 t1 a t2, m s = (s1, t1, Ok a) /\ k a s1 = (s', t2, Ok b).
Proof.
  unfold bind. destruct (m s) as [[s1 t1] [a|e]].
  - destruct (k a s1) as [[s2 t2] r] eqn:E. intro H. injection H as E1 E2 E3.
    subst. exists s1, t1, a, t2. split; [reflexivity | exact E].
  - discriminate.
Qed.

(** Peel one [bind] off hypothesis [H]. *)
Ltac binv H x Hm :=
  apply bind_inv in H; destruct H as (? & ? & x & ? & Hm & H).


Lemma try_except_ok {A} (m : M A) h s s1 t1 (a : A) :
  m s = (s1, t1, Ok a) -> try_except m h s = (s1, t1, Ok a).
Proof. intro E. unfold try_except. rewrite E. reflexivity. Qed.

Definition effective_threshold (cfg : config) (t : option xfloat) : xfloat :=
  match t with
  | None => DETECTION_CONFIDENCE cfg
  | Some t => t
  end.

(** [detect_people] returns what its [try:] body returns, or the zero
    result when the body raised. *)
Lemma detect_people_result cfg env fr draw_boxes thr_opt st :
  snd (detect_people cfg env fr draw_boxes thr_opt st) =
  match snd (detect_body env fr draw_boxes (effective_threshold cfg thr_opt) st) with
  | Ok r => Ok r
  | Raise _ => Ok (0, [], fr)
  end.
Proof.
  unfold detect_people, try_except, effective_threshold.
  destruct (detect_body env fr draw_boxes _ st) as [[s1 t1] [r|e]]; reflexivity.
Qed.

(** What a successful body returned: the zero result (model unavailable) or
    the candidate loop's result on a non-empty frame. *)
Lemma detect_body_ok env fr draw_boxes thr st s' tr r :
  detect_body env fr draw_boxes thr st = (s', tr, Ok r) ->
  r = (0, [], fr) \/
  (width fr <> 0 /\ height fr <> 0 /\
   exists rows, process_candidates (width fr) (height fr) thr draw_boxes rows
                  (0, [], fr) = Ok r).
Proof.
  intro H. unfold detect_body in H.
  binv H st0 Hg. injection Hg as <- _ <-.
  binv H loaded Hl. destruct loaded; cbn [negb] in H.
  2: { injection H as _ _ <-. left; reflexivity. }
  binv H resized Hr. unfold lift, cv_resize in Hr.
  destruct ((height fr =? 0) || (width fr =? 0)) eqn:E; [discriminate|].
  apply orb_false_iff in E as [E1 E2]. apply Z.eqb_neq in E1, E2.
  binv H st1 Hg. injection Hg as <- _ <-.
  binv H n Hn.
  binv H u He.
  binv H rows Hf. unfold lift in H. injection H as _ _ Hp.
  right. split; [exact E2|]. split; [exact E1|]. exists rows. exact Hp.
Qed.

(** ** Claims about detect_people *)

(** C4: [detect_people] is fail-soft: it never raises; when the model is not
    loaded and reloading fails it returns [(0, [], frame)]; and when any step
    of its [try:] body (blob construction, forward pass, candidate
    processing) raises, it returns the same zero result. *)
Theorem C4_detect_fail_soft (cfg : config) (env : engine_env) (fr : frame)
    (draw_boxes : bool) (thr_opt : option xfloat) (st : Gstate) :
  (exists res, snd (detect_people cfg env fr draw_boxes thr_opt st) = Ok res) /\
  (model_loaded st = false -> snd (load_model env st) = Ok false ->
   snd (detect_people cfg env fr draw_boxes thr_opt st) = Ok (0, [], fr)) /\
  (forall e, snd (detect_body env fr draw_boxes (effective_threshold cfg thr_opt) st)
               = Raise e ->
   snd (detect_people cfg env fr draw_boxes thr_opt st) = Ok (0, [], fr)).
Proof.
  rewrite detect_people_result. split; [|split].
  - destruct (snd (detect_body _ _ _ _ _)); eexists; reflexivity.
  - intros HL HF.
    assert (B : snd (detect_body env fr draw_boxes (effective_threshold cfg thr_opt) st)
                = Ok (0, [], fr)).
    { unfold detect_body, bind, get. rewrite HL.
      destruct (load_model env st) as [[s1 t1] r] eqn:E. cbn in HF. subst r.
      reflexivity. }
    rewrite B. reflexivity.
  - intros e He. rewrite He. reflexivity.
Qed.

(** A configuration with the defaults of config.py, camera mode. *)
Definition default_cfg : config :=
  mkConfig (Fin (1 # 2)) (pstr "0") 640 480 30 true false.

(** A network whose single output row is a person at confidence 0.9 with
    normalised box (0.8, 0.1) - (0.2, 0.9): a box whose "start" lies right of
    its "end". *)
Definition crossed_box_env : engine_env :=
  mkEngine true true (Ok (mkNet 0))
    (fun _ _ => Ok [mkCandidate (Fin 15) (Fin (9 # 10))
                      (Fin (8 # 10), Fin (1 # 10), Fin (2 # 10), Fin (9 # 10))]).

(** C2 (counterexample): [detect_people] clips each coordinate on its own and
    never orders them: on a 100 x 100 frame the crossed box comes out with
    [x1 = 80 > x2 = 20], against [x1 <= x2]. *)
Lemma C2_crossed_box_counterexample :
  snd (detect_people default_cfg crossed_box_env (mkFrame 100 100 1 []) false None
         init_state) =
    Ok (1, [mkDetection (Fin (9 # 10)) (mkBbox 80 10 20 90)], mkFrame 100 100 1 []) /\
  ~ (80 <= 20).
Proof. split; [vm_compute; reflexivity | lia]. Qed.

(** C2 (amended): every detection returned by [detect_people] for a frame of
    width [w] and height [h] has each of [x1], [x2] in [0, w-1] and each of
    [y1], [y2] in [0, h-1], non-finite coordinates included, and a
    confidence strictly above the threshold in use. *)
Theorem C2_each_coordinate_clipped (cfg : config) (env : engine_env) (fr : frame)
    (draw_boxes : bool) (thr_opt : option xfloat) (st s' : Gstate)
    (tr : list event) (count : Z) (dl : list detection) (af : frame) :
  0 <= width fr -> 0 <= height fr ->
  detect_people cfg env fr draw_boxes thr_opt st = (s', tr, Ok (count, dl, af)) ->
  Forall (in_bounds (width fr) (height fr) (effective_threshold cfg thr_opt)) dl.
Proof.
  intros Hw Hh H.
  assert (R := detect_people_result cfg env fr draw_boxes thr_opt st).
  rewrite H in R. cbn [snd] in R.
  destruct (detect_body env fr draw_boxes (effective_threshold cfg thr_opt) st)
    as [[s1 t1] [r|e]] eqn:B; cbn [snd] in R.
  - injection R as R. subst r.
    destruct (detect_body_ok _ _ _ _ _ _ _ _ B) as [Z0 | (W0 & H0 & rows & P)].
    + injection Z0 as _ Hdl _. subst dl. constructor.
    + exact (process_candidates_bounds (width fr) (height fr) _ draw_boxes rows
               ltac:(lia) ltac:(lia) (0, [], fr) (count, dl, af) (Forall_nil _) P).
  - injection R as _ Hdl _. subst dl. constructor.
Qed.

Lemma C2_witness :
  0 <= width (mkFrame 100 100 1 []) /\ 0 <= height (mkFrame 100 100 1 []) /\
  detect_people default_cfg crossed_box_env (mkFrame 100 100 1 []) false None init_state
    = (set_model (mkNet 0) init_state,
       [EvLoadNet; EvLog "MobileNet-SSD model loaded successfully"; EvForward],
       Ok (1, [mkDetection (Fin (9 # 10)) (mkBbox 80 10 20 90)], mkFrame 100 100 1 [])) /\
  Forall (in_bounds 100 100 (Fin (1 # 2)))
    [mkDetection (Fin (9 # 10)) (mkBbox 80 10 20 90)].
Proof.
  assert (E : detect_people default_cfg crossed_box_env (mkFrame 100 100 1 []) false None
                init_state
              = (set_model (mkNet 0) init_state,
                 [EvLoadNet; EvLog "MobileNet-SSD model loaded successfully"; EvForward],
                 Ok (1, [mkDetection (Fin (9 # 10)) (mkBbox 80 10 20 90)],
                     mkFrame 100 100 1 []))) by (vm_compute; reflexivity).
  split; [cbn; lia|]. split; [cbn; lia|]. split; [exact E|].
  exact (C2_each_coordinate_clipped default_cfg crossed_box_env (mkFrame 100 100 1 [])
           false None init_state _ _ _ _ _ ltac:(cbn; lia) ltac:(cbn; lia) E).
Defined.

(** A deployment without the prototxt file: loading always fails. *)
Definition no_model_env : engine_env :=
  mkEngine false true (Raise CvError) (fun _ _ => Raise CvError).

Lemma C4_witness :
  model_loaded init_state = false /\
  snd (load_model no_model_env init_state) = Ok false /\
  snd (detect_people default_cfg no_model_env (mkFrame 480 640 1 []) true None init_state)
    = Ok (0, [], mkFrame 480 640 1 []).
Proof.
  split; [reflexivity|]. split; [reflexivity|].
  exact (proj1 (proj2 (C4_detect_fail_soft default_cfg no_model_env
                         (mkFrame 480 640 1 []) true None init_state))
           eq_refl eq_refl).
Defined.

(** ** Lemmas on the capture loop *)

Lemma Qlt_bool_recip_nonneg (n : Z) : 0 < n -> Qlt_bool (1 / inject_Z n) 0 = false.
Proof.
  intro Hn. unfold Qlt_bool. rewrite negb_false_iff. apply Qle_bool_iff.
  apply Qle_shift_div_l.
  - change 0%Q with (inject_Z 0). rewrite <- Zlt_Qlt. exact Hn.
  - rewrite Qmult_0_l. discriminate.
Qed.

Lemma recip_ok (n : Z) : 0 < n -> py_recip n = Ok (1 / inject_Z n)%Q.
Proof.
  intro Hn. unfold py_recip.
  replace (n =? 0) with false by (symmetry; apply Z.eqb_neq; lia). reflexivity.
Qed.

Lemma sleep_recip (n : Z) (s : Gstate) :
  0 < n -> py_sleep (1 / inject_Z n) s = (s, [EvSleep (1 / inject_Z n)], Ok tt).
Proof.
  intro Hn. unfold py_sleep. rewrite (Qlt_bool_recip_nonneg n Hn). reflexivity.
Qed.

(** [time.sleep(1.0 / CAMERA_FPS)] with a positive frame rate. *)
Lemma sleep_fps (n : Z) (s : Gstate) :
  0 < n ->
  bind (lift (py_recip n)) py_sleep s = (s, [EvSleep (1 / inject_Z n)], Ok tt).
Proof.
  intro Hn. unfold bind, lift, py_recip.
  replace (n =? 0) with false by (symmetry; apply Z.eqb_neq; lia).
  unfold py_sleep. rewrite (Qlt_bool_recip_nonneg n Hn). reflexivity.
Qed.



(** ** Claims about the capture loop *)







(** ** Hoare triples for computations that do not raise *)

Definition triple {A} (P : Gstate -> Prop) (m : M A) (Q : A -> Gstate -> Prop) : Prop :=
  forall s, P s -> exists s' t a, m s = (s', t, Ok a) /\ Q a s'.













Lemma triple_ok {A} (P : Gstate -> Prop) (m : M A) (Q : A -> Gstate -> Prop) s :
  triple P m Q -> P s -> exists a, snd (m s) = Ok a.
Proof. intros H Hs. destruct (H s Hs) as (s1 & t1 & a & E & _). exists a. rewrite E. reflexivity. Qed.












(** A camera that opens at every index and always returns frame 8, with the
    crossed-box network; and the same with [stop()] already called. *)
Definition working_world : world :=
  mkWorld false (fun _ => true) (fun _ => Some (mkFrame 480 640 8 [])) crossed_box_env.

Definition stopped_world : world :=
  mkWorld true (fun _ => true) (fun _ => Some (mkFrame 480 640 8 [])) crossed_box_env.




(** C9: in cloud mode every iteration of the capture loop publishes count 0,
    no detections and the 480 x 640 placeholder frame, opens, reads and
    infers nothing, and sleeps 1 s; over any run of the loop these two
    events are the only ones. *)
Theorem C9_cloud_mode_publishes_placeholder (cfg : config) (w : world) (st : Gstate) :
  CLOUD_MODE cfg = true ->
  capture_iter cfg w st =
    (publish 0 (mock_frame cfg) [] st,
     [EvPublish 0 (mock_frame cfg) []; EvSleep 1], Ok tt) /\
  height (mock_frame cfg) = 480 /\ width (mock_frame cfg) = 640 /\
  (forall ws s,
     Forall (fun ev => ev = EvPublish 0 (mock_frame cfg) [] \/ ev = EvSleep 1)
       (snd (fst (run_capture cfg ws s)))).
Proof.
  intro HC.
  assert (It : forall w s, capture_iter cfg w s =
                 (publish 0 (mock_frame cfg) [] s,
                  [EvPublish 0 (mock_frame cfg) []; EvSleep 1], Ok tt)).
  { intros w' s. unfold capture_iter. rewrite HC. reflexivity. }
  split; [apply It|]. split; [reflexivity|]. split; [reflexivity|].
  induction ws as [|w' ws IH]; intro s; [constructor|].
  cbn [run_capture]. destruct (w_stop w'); [constructor|].
  unfold bind at 1. rewrite It.
  specialize (IH (publish 0 (mock_frame cfg) [] s)).
  destruct (run_capture cfg ws (publish 0 (mock_frame cfg) [] s)) as [[s2 t2] r].
  cbn [fst snd] in *. constructor; [left; reflexivity|].
  constructor; [right; reflexivity|]. exact IH.
Qed.

Definition cloud_cfg : config :=
  mkConfig (Fin (1 # 2)) (pstr "0") 640 480 30 true true.

Lemma C9_witness :
  CLOUD_MODE cloud_cfg = true /\
  capture_iter cloud_cfg working_world init_state =
    (publish 0 (mock_frame cloud_cfg) [] init_state,
     [EvPublish 0 (mock_frame cloud_cfg) []; EvSleep 1], Ok tt).
Proof.
  split; [reflexivity|].
  exact (proj1 (C9_cloud_mode_publishes_placeholder cloud_cfg working_world init_state
                  eq_refl)).
Defined.

(** ** FrameSource.open (initialize_camera) *)









(** ** The frame stream *)

(** The frame the generator copies in an iteration. *)
Definition frame_seen (gw : gen_world) (s : Gstate) : option frame :=
  match g_publish gw with
  | Some (_, f, _) => Some f
  | None => latest_frame s
  end.


(** One generator iteration, evaluated. *)
Lemma gen_iter_eval (cfg : config) (gw : gen_world) (s : Gstate) :
  0 < CAMERA_FPS cfg ->
  let s0 := match g_publish gw with Some (c, f, dl) => publish c f dl s | None => s end in
  let s1 := if is_running s0 then s0 else set_running true false s0 in
  let pre := if is_running s0 then []
             else [EvThreadStart; EvLog "Camera background thread started"] in
  gen_iter cfg gw s =
    match frame_seen gw s with
    | None => (s1, pre ++ [EvSleep (1 # 10)], Ok tt)
    | Some f =>
        match g_encode gw f with
        | None => (s1, pre ++ [EvSleep (1 # 10)], Ok tt)
        | Some b => (s1, pre ++ [EvYield (mk_chunk b);
                                 EvSleep (1 / inject_Z (CAMERA_FPS cfg))], Ok tt)
        end
    end.
Proof.
  intros Hfps s0 s1 pre. subst s0 s1 pre.
  unfold frame_seen, gen_iter, start, bind, get, ret, modify, emit, log, lift.
  rewrite (recip_ok _ Hfps).
  assert (SL : forall s', py_sleep (1 / inject_Z (CAMERA_FPS cfg)) s' = (s', [EvSleep (1 / inject_Z (CAMERA_FPS cfg))], Ok tt)) by (intro; apply sleep_recip; exact Hfps).
  assert (SL2 : forall s', py_sleep (1 # 10) s' = (s', [EvSleep (1 # 10)], Ok tt)) by reflexivity.
  destruct s as [cp lc lf ld ir se nt ml].
  destruct (g_publish gw) as [[[c f] dl]|];
  [| destruct lf as [f|]];
  destruct ir;
  lazy beta iota zeta delta [negb is_running latest_frame publish set_running app emit log bind ret get modify];
  try destruct (g_encode gw f);
  rewrite ?SL, ?SL2; reflexivity.
Qed.

(** The generator's iteration in the form the loop argument uses. *)
Lemma gen_iter_shape (cfg : config) (gw : gen_world) (s : Gstate) :
  0 < CAMERA_FPS cfg ->
  exists s' tr,
    gen_iter cfg gw s = (s', tr, Ok tt) /\
    is_running s' = true /\
    latest_frame s' = frame_seen gw s /\
    yields tr = match frame_seen gw s with
                | None => []
                | Some f => match g_encode gw f with
                            | Some b => [mk_chunk b]
                            | None => []
                            end
                end /\
    (frame_seen gw s = None ->
       exists pre, tr = pre ++ [EvSleep (1 # 10)] /\ yields pre = []).
Proof.
  intro Hfps. rewrite (gen_iter_eval cfg gw s Hfps).
  unfold frame_seen.
  destruct s as [cp lc lf ld ir se nt ml].
  destruct (g_publish gw) as [[[c f] dl]|]; [| destruct lf as [f|]];
    destruct ir; cbn;
    try destruct (g_encode gw f);
    eexists; eexists; (split; [reflexivity|]); cbn;
    repeat split; try discriminate;
    intros _;
    first [ exists []; split; reflexivity
          | exists [EvThreadStart; EvLog "Camera background thread started"];
            split; reflexivity ].
Qed.


(** Two idle polls before any capture, then a published frame that encodes. *)
Definition idle_poll : gen_world := mkGenWorld None (fun _ => Some "jpeg"%string).
Definition first_publish : gen_world :=
  mkGenWorld (Some (0, mkFrame 480 640 0 [], [])) (fun _ => Some "jpeg"%string).


(** ** Consistency of the shared detection state *)

Definition cycle1_frame : frame := mkFrame 480 640 1 [].
Definition cycle2_frame : frame := mkFrame 480 640 2 [].
Definition cycle1_detection : detection :=
  mkDetection (Fin (9 # 10)) (mkBbox 10 10 50 50).

(** The worker publishes two cycles, [(1, f1, [d1])] then [(0, f2, [])];
    [count_route] runs between them. *)
Definition two_cycles_threads : list (list action) :=
  [[APublish 1 cycle1_frame [cycle1_detection]; APublish 0 cycle2_frame []];
   count_route_thread].

(** C5 counterexample: under the schedule worker, reader, worker, reader,
    [count_route] observes the count 1 of the first cycle together with the
    empty detection list of the second; no cycle published that pair. *)
Lemma C5_count_route_mixes_cycles :
  let '(_, _, os) := run_sched two_cycles_threads [0; 1; 0; 1]%nat init_state in
  os = [(1%nat, OCount 1); (1%nat, ODetections [])] /\
  ~ (exists f, In (APublish 1 f []) (List.concat two_cycles_threads)).
Proof.
  cbn. split; [reflexivity|].
  intros [f H]. cbn in H.
  destruct H as [H|[H|[H|[H|H]]]]; try discriminate; contradiction.
Qed.

(** C5 (amended): under every interleaving of the worker and the readers,
    where each [with self.lock:] block is atomic, the shared
    (count, frame, detections) triple is always that of the last completed
    publication (or the one held before any), and every single read returns
    the field of the most recent publication executed before it. A triple is
    never torn by a read, but a caller that makes two reads (as
    [count_route] does) may combine fields of different cycles. *)
Theorem C5_reads_see_last_publication (ths : list (list action))
    (sched : list nat) (s : Gstate) :
  let '(s', done, os) := run_sched ths sched s in
  shared_triple s' = last_published done (shared_triple s) /\
  map snd os = reads_of_last done (shared_triple s).
Proof.
  revert ths s. induction sched as [|i sched IH]; intros ths s; [split; reflexivity|].
  cbn [run_sched].
  destruct (pop_action i ths) as [[a ths']|]; [|apply IH].
  specialize (IH ths' (fst (step_action a s))).
  destruct a as [c f dl| | |]; cbn [step_action fst] in IH |- *;
    destruct (run_sched ths' sched _) as [[s2 done] os];
    destruct IH as [IH1 IH2]; split; cbn; assumption || (f_equal; assumption).
Qed.

(** ** The annotated frame *)

(** The candidate loop, completely: count, detections and frame. *)
Lemma process_candidates_eq (w h : Z) (thr : xfloat) (draw_boxes : bool)
    (cs : list candidate) :
  forall c0 dl0 f0 r,
    process_candidates w h thr draw_boxes cs (c0, dl0, f0) = Ok r ->
    let new := map (mk_detection w h) (filter (accepted thr) cs) in
    r = (c0 + Z.of_nat (List.length new), dl0 ++ new,
         if draw_boxes then fold_left draw_detection new f0 else f0).
Proof.
  induction cs as [|c cs IH]; intros c0 dl0 f0 r H; cbn in H.
  - injection H as <-. cbn. rewrite Z.add_0_r, app_nil_r.
    destruct draw_boxes; reflexivity.
  - cbn [filter].
    replace (accepted thr c)
      with (py_gt (c_conf c) thr && class_is_person (c_class c)) by reflexivity.
    destruct (py_gt (c_conf c) thr) eqn:G; cbn [andb].
    2: apply (IH _ _ _ _ H).
    unfold class_is_person. destruct (py_int (c_class c)) as [idx|e] eqn:I;
      cbn in H; [|discriminate].
    destruct (idx <? 21) eqn:L.
    + destruct (py_getitem CLASSES idx) as [nm|e] eqn:Gi; cbn in H; [|discriminate].
      destruct (String.eqb nm "person") eqn:P.
      * rewrite (IH _ _ _ _ H). cbn [map List.length fold_left].
        rewrite <- app_assoc. cbn [app].
        f_equal; [f_equal; lia|]. destruct draw_boxes; reflexivity.
      * apply (IH _ _ _ _ H).
    + apply Z.ltb_ge in L. rewrite (getitem_CLASSES_high idx L).
      apply (IH _ _ _ _ H).
Qed.

(** What [detect_people] returns when it succeeds: the zero result on the
    input frame, or the candidate loop's result for some network output. *)
Lemma detect_people_cases cfg env fr draw_boxes thr_opt st :
  exists r, snd (detect_people cfg env fr draw_boxes thr_opt st) = Ok r /\
  (r = (0, [], fr) \/
   exists rows,
     let new := map (mk_detection (width fr) (height fr))
                  (filter (accepted (effective_threshold cfg thr_opt)) rows) in
     r = (Z.of_nat (List.length new), new,
          if draw_boxes then fold_left draw_detection new fr else fr)).
Proof.
  rewrite detect_people_result.
  destruct (detect_body env fr draw_boxes (effective_threshold cfg thr_opt) st)
    as [[s1 t1] [r|e]] eqn:B; cbn [snd].
  - exists r. split; [reflexivity|].
    destruct (detect_body_ok _ _ _ _ _ _ _ _ B) as [->|(_ & _ & rows & P)];
      [left; reflexivity|].
    right. exists rows. rewrite (process_candidates_eq _ _ _ _ _ _ _ _ _ P).
    cbn. reflexivity.
  - exists (0, [], fr). split; [reflexivity|left; reflexivity].
Qed.

(** The marks the drawing of one detection adds. *)
Definition detection_marks (d : detection) : list mark :=
  [Rect (x1 (box d)) (y1 (box d)) (x2 (box d)) (y2 (box d));
   Label (confidence d) (x1 (box d))
     (if 15 <? y1 (box d) - 15 then y1 (box d) - 15 else y1 (box d) + 15)].

Lemma fold_draw_detection (dl : list detection) :
  forall f,
    fold_left draw_detection dl f =
    mkFrame (height f) (width f) (pixels f) (marks f ++ flat_map detection_marks dl).
Proof.
  induction dl as [|d dl IH]; intro f; cbn.
  - rewrite app_nil_r. destruct f; reflexivity.
  - rewrite IH. cbn. rewrite <- app_assoc. reflexivity.
Qed.

Lemma clip_nonneg (dim : Z) (v : Q) : 0 <= clip dim v.
Proof.
  unfold clip, trunc.
  assert (H0 := py_max0_nonneg (py_min (inject_Z (dim - 1)) v)).
  replace (Qle_bool 0 _) with true by (symmetry; apply Qle_bool_iff, H0).
  rewrite <- (Qfloor_Z 0). apply Qfloor_resp_le. exact H0.
Qed.

Lemma mk_detection_y1_nonneg (w h : Z) (c : candidate) :
  0 <= y1 (box (mk_detection w h c)).
Proof.
  destruct c as [k conf [[[b0 b1] b2] b3]]. cbn. apply clip_nonneg.
Qed.

(** ** Further properties of detect_people *)

(** [detect_people] always returns a count equal to the number of
    detections it returns, on every path (model missing, inference error,
    normal run). *)
Theorem detect_people_count_is_length (cfg : config) (env : engine_env) (fr : frame)
    (draw_boxes : bool) (thr_opt : option xfloat) (st : Gstate) :
  exists count dl af,
    snd (detect_people cfg env fr draw_boxes thr_opt st) = Ok (count, dl, af) /\
    count = Z.of_nat (List.length dl).
Proof.
  destruct (detect_people_cases cfg env fr draw_boxes thr_opt st)
    as (r & E & [->|(rows & ->)]); rewrite E.
  - exists 0, [], fr. split; reflexivity.
  - eexists _, _, _. split; reflexivity.
Qed.

(** Without [draw_boxes], [detect_people] hands back the very frame it was
    given, on every path. *)
Theorem detect_people_no_draw_same_frame (cfg : config) (env : engine_env)
    (fr : frame) (thr_opt : option xfloat) (st : Gstate) :
  exists count dl,
    snd (detect_people cfg env fr false thr_opt st) = Ok (count, dl, fr).
Proof.
  destruct (detect_people_cases cfg env fr false thr_opt st)
    as (r & E & [->|(rows & ->)]); rewrite E; eexists _, _; reflexivity.
Qed.

(** With [draw_boxes], the returned frame has the input frame's shape and
    pixel buffer, and its drawings are the input's followed by, for each
    returned detection in order, its rectangle and its confidence label;
    nothing is drawn for rejected candidates, and nothing at all when the
    zero result is returned. *)
Theorem detect_people_draws_returned_detections (cfg : config) (env : engine_env)
    (fr : frame) (thr_opt : option xfloat) (st : Gstate) :
  exists count dl af,
    snd (detect_people cfg env fr true thr_opt st) = Ok (count, dl, af) /\
    height af = height fr /\ width af = width fr /\ pixels af = pixels fr /\
    marks af = marks fr ++ flat_map detection_marks dl.
Proof.
  destruct (detect_people_cases cfg env fr true thr_opt st)
    as (r & E & [->|(rows & ->)]); rewrite E.
  - exists 0, [], fr. rewrite app_nil_r. repeat split; reflexivity.
  - eexists _, _, _. split; [reflexivity|]. rewrite fold_draw_detection.
    repeat split; reflexivity.
Qed.

(** Every confidence label [detect_people] draws is anchored at a row
    [y >= 15]: 15 pixels above the box when that stays below row 15, else
    15 pixels below the box top. *)
Theorem detect_people_label_row (cfg : config) (env : engine_env) (fr : frame)
    (thr_opt : option xfloat) (st : Gstate) :
  exists count dl af,
    snd (detect_people cfg env fr true thr_opt st) = Ok (count, dl, af) /\
    forall conf x y, In (Label conf x y) (flat_map detection_marks dl) -> 15 <= y.
Proof.
  destruct (detect_people_cases cfg env fr true thr_opt st)
    as (r & E & [->|(rows & ->)]); rewrite E.
  - exists 0, [], fr. split; [reflexivity|]. intros ? ? ? [].
  - eexists _, _, _. split; [reflexivity|].
    intros conf x y H. apply in_flat_map in H as (d & Hd & Hm).
    apply in_map_iff in Hd as (c & <- & _).
    assert (Y := mk_detection_y1_nonneg (width fr) (height fr) c).
    cbn in Hm. destruct Hm as [Hm|[Hm|[]]]; [discriminate|].
    injection Hm as _ _ <-.
    destruct (15 <? _) eqn:L; [apply Z.ltb_lt in L|]; lia.
Qed.

(** Refute membership of an event in a concrete trace. *)
Ltac not_in_trace :=
  let H := fresh in
  intro H; cbn in H; repeat destruct H as [H|H]; try discriminate; try contradiction.

(** [load_model] never raises. It returns True exactly when both model files
    exist and [readNetFromCaffe] succeeds, and only then stores the network
    and sets [model_loaded]; otherwise the state is unchanged. The network
    file is read only when both files exist. *)
Theorem load_model_outcome (env : engine_env) (s : Gstate) :
  snd (load_model env s) =
    Ok (prototxt_exists env && weights_exists env &&
        match read_net env with Ok _ => true | Raise _ => false end) /\
  fst (fst (load_model env s)) =
    (if prototxt_exists env && weights_exists env then
       match read_net env with Ok n => set_model n s | Raise _ => s end
     else s) /\
  (In EvLoadNet (snd (fst (load_model env s))) <->
   prototxt_exists env && weights_exists env = true).
Proof.
  unfold load_model, try_except, bind, log, emit, ret, lift, modify.
  destruct (prototxt_exists env); cbn.
  2: { repeat split; try reflexivity; not_in_trace. }
  destruct (weights_exists env); cbn.
  2: { repeat split; try reflexivity; not_in_trace. }
  destruct (read_net env); cbn; repeat split; auto.
Qed.

(** The output lines of [load_model] and its call of [readNetFromCaffe]. *)
Definition load_model_event (e : event) : bool :=
  match e with
  | EvLoadNet => true
  | EvLog m =>
      String.eqb m "Warning: Model prototxt not found" ||
      String.eqb m "Warning: Model weights not found" ||
      String.eqb m "MobileNet-SSD model loaded successfully" ||
      String.eqb m "Error loading model"
  | _ => false
  end.

(** Once the model is loaded, [detect_people] never calls [load_model]
    again: its whole run (state, trace and result) is the same whatever the
    model files and [readNetFromCaffe] would answer, its trace has none of
    [load_model]'s output lines nor a network load, and it leaves the
    process state as it is. *)
Theorem detect_people_loaded_no_reload (cfg : config) (env : engine_env)
    (fr : frame) (draw_boxes : bool) (thr_opt : option xfloat) (st : Gstate) :
  model_loaded st = true ->
  (forall env', forward env' = forward env ->
     detect_people cfg env' fr draw_boxes thr_opt st =
     detect_people cfg env fr draw_boxes thr_opt st) /\
  fst (fst (detect_people cfg env fr draw_boxes thr_opt st)) = st /\
  forallb (fun e => negb (load_model_event e))
    (snd (fst (detect_people cfg env fr draw_boxes thr_opt st))) = true.
Proof.
  intro HL. split.
  { intros env' Hf.
    unfold detect_people, try_except, detect_body, bind, get, ret, lift, raise, emit, log.
    rewrite HL. cbn -[process_candidates]. rewrite Hf. reflexivity. }
  unfold detect_people, try_except, detect_body, bind, get, ret, lift, raise,
    emit, log.
  rewrite HL. cbn -[process_candidates].
  destruct (cv_resize fr 300 300); cbn -[process_candidates].
  2: { split; reflexivity. }
  destruct (net st); cbn -[process_candidates].
  2: { split; reflexivity. }
  destruct (forward env _ _); cbn -[process_candidates].
  2: { split; reflexivity. }
  destruct (process_candidates _ _ _ _ _ _); cbn; split; reflexivity.
Qed.

(** With the model loaded, an empty frame (zero height or width) makes
    [cv2.resize] fail: [detect_people] logs the error, runs no forward pass
    and returns [(0, [], frame)]. *)
Theorem detect_people_empty_frame (cfg : config) (env : engine_env) (fr : frame)
    (draw_boxes : bool) (thr_opt : option xfloat) (st : Gstate) :
  model_loaded st = true -> height fr = 0 \/ width fr = 0 ->
  detect_people cfg env fr draw_boxes thr_opt st =
    (st, [EvLog "Error in detection"], Ok (0, [], fr)).
Proof.
  intros HL Hd.
  assert (R : cv_resize fr 300 300 = Raise CvError).
  { unfold cv_resize. destruct Hd as [-> | ->]; cbn; [reflexivity|].
    rewrite orb_true_r. reflexivity. }
  unfold detect_people, try_except, detect_body, bind, get, ret, lift, log, emit.
  rewrite HL. cbn -[cv_resize]. rewrite R. reflexivity.
Qed.

(** ** Further properties of camera.py *)



(** A code point [PyLong_FromString] accepts somewhere in its text. *)
Definition ascii_int_char (c : Z) : bool :=
  is_ascii_space c || is_ascii_digit c || (c =? 95) || (c =? 43) || (c =? 45).

(** A code point [int()] accepts somewhere in its argument: one of the
    above, or above ASCII a whitespace or decimal-digit code point. *)
Definition int_char (c : Z) : bool :=
  ascii_int_char c || unicode_isspace c ||
  match unicode_todecimal c with Some _ => true | None => false end.

Lemma skip_spaces_split (l : pystr) :
  exists pre, l = pre ++ skip_spaces l /\ forallb is_ascii_space pre = true.
Proof.
  induction l as [|c l IH]; [exists []; split; reflexivity|].
  cbn. destruct (is_ascii_space c) eqn:E.
  - destruct IH as (pre & H1 & H2). exists (c :: pre). cbn. rewrite E, <- H1. auto.
  - exists []. split; reflexivity.
Qed.

Lemma scan_digits_split (n : nat) :
  forall (l : pystr) acc k v m rest, (List.length l <= n)%nat ->
  scan_digits l acc k = Some (v, m, rest) ->
  exists pre, l = pre ++ rest /\
              forallb (fun c => is_ascii_digit c || (c =? 95)) pre = true.
Proof.
  induction n as [|n IH]; intros l acc k v m rest Hn H.
  - destruct l; [|cbn in Hn; lia]. cbn in H. injection H as _ _ <-.
    exists []. split; reflexivity.
  - destruct l as [|c l].
    + cbn in H. injection H as _ _ <-. exists []. split; reflexivity.
    + cbn in H, Hn. destruct (is_ascii_digit c) eqn:D.
      * destruct (IH l _ _ _ _ _ ltac:(lia) H) as (pre & -> & F).
        exists (c :: pre). cbn. rewrite D, F. auto.
      * destruct (c =? 95) eqn:U.
        -- destruct l as [|d l']; [discriminate|].
           destruct (is_ascii_digit d) eqn:D'; [|discriminate].
           destruct (IH l' _ _ _ _ _ ltac:(cbn in Hn; lia) H) as (pre & -> & F).
           exists (c :: d :: pre). cbn. rewrite D, U, D', F. auto.
        -- injection H as _ _ <-. exists []. split; reflexivity.
Qed.

(** Every code point of a text [PyLong_FromString] accepts is ASCII
    whitespace, a digit, an underscore or a sign. *)
Lemma long_from_string_chars (l : pystr) (z : Z) :
  long_from_string l = Some z -> forallb ascii_int_char l = true.
Proof.
  unfold long_from_string. intro H.
  destruct (skip_spaces_split l) as (pre & El & Fp).
  assert (Fpre : forallb ascii_int_char pre = true).
  { rewrite forallb_forall in Fp |- *. intros x Hx. unfold ascii_int_char.
    rewrite (Fp x Hx). reflexivity. }
  rewrite El, forallb_app, Fpre. cbn [andb].
  set (l1 := skip_spaces l) in *. clearbody l1.
  assert (Tail : forall l2, forallb ascii_int_char l2 = true ->
                 (exists c, ascii_int_char c = true /\ l1 = c :: l2) \/ l1 = l2 ->
                 forallb ascii_int_char l1 = true).
  { intros l2 F [(c & Hc & ->) | ->]; [cbn; rewrite Hc, F; reflexivity|exact F]. }
  assert (Body : forall l2, match l2 with
           | d :: r =>
               if is_ascii_digit d then
                 match scan_digits r (d - 48) 1 with
                 | Some (v, n, rest) =>
                     if (n <=? int_max_str_digits) && forallb is_ascii_space rest
                     then Some (1 * v) else None
                 | None => None
                 end
               else None
           | [] => None
           end <> None -> forallb ascii_int_char l2 = true).
  { intros [|d r] Hl2; [congruence|].
    destruct (is_ascii_digit d) eqn:D; [|congruence].
    destruct (scan_digits r (d - 48) 1) as [[[v n] rest]|] eqn:S; [|congruence].
    destruct ((n <=? int_max_str_digits) && forallb is_ascii_space rest) eqn:B;
      [|congruence].
    apply andb_prop in B as [_ B].
    destruct (scan_digits_split (List.length r) r _ _ _ _ _ (le_n _) S)
      as (pre' & -> & F).
    cbn. unfold ascii_int_char at 1. rewrite D, orb_true_r. cbn.
    rewrite forallb_app. apply andb_true_intro. split.
    - rewrite forallb_forall in F |- *. intros x Hx. unfold ascii_int_char.
      destruct (orb_prop _ _ (F x Hx)) as [E|E]; rewrite E; rewrite ?orb_true_r; reflexivity.
    - rewrite forallb_forall in B |- *. intros x Hx. unfold ascii_int_char.
      rewrite (B x Hx). reflexivity. }
  destruct l1 as [|c r]; [discriminate|].
  destruct (c =? 43) eqn:Plus.
  - apply (Tail r); [apply Body; rewrite H; discriminate|].
    left. exists c. split; [|reflexivity]. unfold ascii_int_char. rewrite Plus.
    rewrite ?orb_true_r. reflexivity.
  - destruct (c =? 45) eqn:Minus.
    + apply (Tail r); [|left; exists c; split; [unfold ascii_int_char; rewrite Minus;
                                                 rewrite ?orb_true_r; reflexivity|reflexivity]].
      apply Body. destruct r as [|d r']; [discriminate|].
      destruct (is_ascii_digit d); [|discriminate].
      destruct (scan_digits r' (d - 48) 1) as [[[v n] rest]|]; [|discriminate].
      destruct ((n <=? int_max_str_digits) && forallb is_ascii_space rest); discriminate.
    + apply (Tail (c :: r)); [apply Body; rewrite H; discriminate|right; reflexivity].
Qed.

Lemma transform_chars (s : pystr) :
  forallb ascii_int_char (transform_decimal_and_space s) = true ->
  forallb int_char s = true.
Proof.
  induction s as [|c s IH]; [reflexivity|]. cbn [transform_decimal_and_space forallb].
  destruct (c <? 127) eqn:A.
  - cbn [forallb]. intro H. apply andb_prop in H as [H1 H2].
    unfold int_char at 1. rewrite H1, (IH H2). reflexivity.
  - destruct (unicode_isspace c) eqn:Sp.
    + cbn [forallb]. intro H. apply andb_prop in H as [_ H2].
      unfold int_char at 1. rewrite Sp, orb_true_r. exact (IH H2).
    + destruct (unicode_todecimal c) as [d|] eqn:Dc.
      * cbn [forallb]. intro H. apply andb_prop in H as [_ H2].
        unfold int_char at 1. rewrite Dc, orb_true_r. exact (IH H2).
      * cbn. discriminate.
Qed.

(** Every code point of a str [int()] accepts is one [int_char] allows. *)
Lemma py_int_of_string_chars (s : pystr) (z : Z) :
  py_int_of_string s = Some z -> forallb int_char s = true.
Proof.
  unfold py_int_of_string. intro H.
  destruct (forallb (fun c => c <? 128) s).
  - apply long_from_string_chars in H. rewrite forallb_forall in H |- *.
    intros x Hx. unfold int_char. rewrite (H x Hx). reflexivity.
  - apply transform_chars. exact (long_from_string_chars _ _ H).
Qed.

(** A camera source with a code point [int()] never accepts (anything but
    ASCII whitespace, an ASCII digit, '_', '+', '-', or a non-ASCII
    whitespace or decimal digit: "/", ":", ".", a letter, '\x1c') never
    parses as a device index: outside cloud mode, with no capture open and a
    source with a UTF-8 encoding, [initialize_camera] opens it once as a
    path / URL and its result is whether that capture opened. *)
Theorem initialize_camera_path_source (cfg : config) (w : world) (st : Gstate)
    (c : Z) :
  In c (CAMERA_SOURCE cfg) -> int_char c = false ->
  existsb is_surrogate (CAMERA_SOURCE cfg) = false ->
  CLOUD_MODE cfg = false -> cap_is_open (cap st) = false ->
  py_int_of_string (CAMERA_SOURCE cfg) = None /\
  initialize_camera cfg w st =
    (set_cap (Some (mkCap (SrcPath (CAMERA_SOURCE cfg))
                     (w_opens w (SrcPath (CAMERA_SOURCE cfg))))) st,
     [EvLog "Attempting to open camera from source";
      EvOpen (SrcPath (CAMERA_SOURCE cfg));
      EvLog (if w_opens w (SrcPath (CAMERA_SOURCE cfg))
             then "Camera initialized successfully" else "Failed to open camera")],
     Ok (w_opens w (SrcPath (CAMERA_SOURCE cfg)))).
Proof.
  intros Hin Hc Hs HC O.
  assert (P : py_int_of_string (CAMERA_SOURCE cfg) = None).
  { destruct (py_int_of_string (CAMERA_SOURCE cfg)) as [z|] eqn:E; [|reflexivity].
    exfalso. apply py_int_of_string_chars in E. rewrite forallb_forall in E.
    rewrite (E c Hin) in Hc. discriminate. }
  split; [exact P|].
  unfold initialize_camera. rewrite HC. unfold bind at 1. cbn -[try_indices].
  rewrite O, P. cbn. unfold video_capture, source_convertible. rewrite Hs. cbn.
  destruct (w_opens w (SrcPath (CAMERA_SOURCE cfg))); reflexivity.
Qed.

Lemma thread_starts_app (t1 t2 : list event) :
  thread_starts (t1 ++ t2) = (thread_starts t1 + thread_starts t2)%nat.
Proof. induction t1 as [|e t1 IH]; [reflexivity|]. destruct e; cbn; rewrite ?IH; reflexivity. Qed.

(** [release_camera] releases the held capture, if any, exactly once and
    leaves [self.cap] None; calling it again does nothing. *)
Theorem release_camera_once (s : Gstate) :
  release_camera s =
    (set_cap None s,
     match cap s with Some c => [EvRelease (cap_src c)] | None => [] end, Ok tt) /\
  (release_camera ;; release_camera) s = release_camera s.
Proof.
  destruct s as [[c|] lc lf ld ir se nt ml]; split; reflexivity.
Qed.

(** [start] launches a worker thread only when none is running: it then
    sets [is_running] and clears the stop event; calling it twice is the
    same as calling it once. *)
Theorem start_idempotent (s : Gstate) :
  start s =
    (if is_running s then (s, [], Ok tt)
     else (set_running true false s,
           [EvThreadStart; EvLog "Camera background thread started"], Ok tt)) /\
  (start ;; start) s = start s.
Proof.
  destruct s as [cp lc lf ld [|] se nt ml]; split; reflexivity.
Qed.

(** [stop] clears [is_running], sets the stop event and releases the camera;
    a later [start] therefore always launches a new worker thread, with the
    stop event cleared and no capture held, so that the worker opens the
    camera again. The other fields (latest results, model) are kept. *)
Theorem stop_then_start_restarts (s : Gstate) :
  let '(s1, t1, r1) := stop s in
  let '(s2, t2, r2) := (stop ;; start) s in
  r1 = Ok tt /\ is_running s1 = false /\ stop_event s1 = true /\ cap s1 = None /\
  r2 = Ok tt /\ s2 = set_running true false (set_cap None s) /\
  thread_starts t2 = 1%nat.
Proof.
  destruct s as [[c|] lc lf ld ir se nt ml]; cbn; repeat split; reflexivity.
Qed.

(** The module-level [get_count()] returns the latest count; when the
    worker is not running it starts it (one thread), otherwise it starts
    nothing; in both cases the worker is running afterwards, so a second
    call starts no other thread. *)
Theorem camera_get_count_starts_once (s : Gstate) :
  let '(s1, t1, r1) := camera.get_count s in
  r1 = Ok (latest_count s) /\ is_running s1 = true /\
  thread_starts t1 = (if is_running s then 0 else 1)%nat /\
  shared_triple s1 = shared_triple s /\
  camera.get_count s1 = (s1, [], Ok (latest_count s)).
Proof.
  destruct s as [cp lc lf ld [|] se nt ml]; cbn; repeat split; reflexivity.
Qed.

(** However many iterations the frame generator runs, it starts the worker
    thread at most once: not at all when the worker is already running,
    exactly once otherwise (at its first iteration). *)
Theorem generator_starts_worker_once (cfg : config) (gws : list gen_world)
    (st : Gstate) :
  0 < CAMERA_FPS cfg ->
  thread_starts (snd (fst (run_gen cfg gws st))) =
    (match gws with [] => 0 | _ => if is_running st then 0 else 1 end)%nat.
Proof.
  intro Hfps.
  assert (Rest : forall gws s, is_running s = true ->
                   thread_starts (snd (fst (run_gen cfg gws s))) = 0%nat).
  { induction gws0 as [|gw gws0 IH]; intros s R; [reflexivity|].
    cbn [run_gen]. unfold bind.
    rewrite (gen_iter_eval cfg gw s Hfps).
    assert (R0 : is_running (match g_publish gw with
                             | Some (c, f, dl) => publish c f dl s | None => s end) = true)
      by (destruct (g_publish gw) as [[[c f] dl]|]; exact R).
    rewrite R0.
    set (s0 := match g_publish gw with Some (c, f, dl) => publish c f dl s | None => s end)
      in *.
    specialize (IH s0 R0).
    destruct (frame_seen gw s) as [f|]; [destruct (g_encode gw f)|];
      destruct (run_gen cfg gws0 s0) as [[s2 t2] r2]; cbn in IH |- *;
      rewrite ?thread_starts_app; cbn; exact IH. }
  destruct gws as [|gw gws]; [reflexivity|].
  cbn [run_gen]. unfold bind.
  rewrite (gen_iter_eval cfg gw st Hfps).
  set (s0 := match g_publish gw with Some (c, f, dl) => publish c f dl st | None => st end).
  assert (R0 : is_running s0 = is_running st)
    by (subst s0; destruct (g_publish gw) as [[[c f] dl]|]; reflexivity).
  rewrite R0.
  set (s1 := if is_running st then s0 else set_running true false s0).
  assert (R1 : is_running s1 = true)
    by (subst s1; destruct (is_running st) eqn:E; [congruence|reflexivity]).
  assert (Hr := Rest gws s1 R1).
  destruct (frame_seen gw st) as [f|]; [destruct (g_encode gw f)|];
    destruct (run_gen cfg gws s1) as [[s2 t2] r2]; cbn in Hr |- *;
    rewrite !thread_starts_app, Hr; destruct (is_running st); reflexivity.
Qed.

(** ** Invariants of the capture loop

    [keeps I m Q]: from a state satisfying [I], [m] ends (normally or by an
    exception) in a state satisfying [I], and a normal result satisfies [Q]. *)

Definition keeps {A} (I : Gstate -> Prop) (m : M A) (Q : A -> Prop) : Prop :=
  forall s, I s ->
    I (fst (fst (m s))) /\ match snd (m s) with Ok a => Q a | Raise _ => True end.

Lemma keeps_bind {A B} I (m : M A) (R : A -> Prop) (k : A -> M B) (Q : B -> Prop) :
  keeps I m R -> (forall a, R a -> keeps I (k a) Q) -> keeps I (bind m k) Q.
Proof.
  intros Hm Hk s Hs. specialize (Hm s Hs). unfold bind.
  destruct (m s) as [[s1 t1] [a|e]]; cbn in *; destruct Hm as [H1 H2].
  - specialize (Hk a H2 s1 H1). destruct (k a s1) as [[s2 t2] r]. exact Hk.
  - split; auto.
Qed.

Lemma keeps_ret {A} I (a : A) (Q : A -> Prop) : Q a -> keeps I (ret a) Q.
Proof. intros H s Hs. cbn. split; auto. Qed.

Lemma keeps_get I (Q : Gstate -> Prop) : (forall s, I s -> Q s) -> keeps I get Q.
Proof. intros H s Hs. cbn. split; auto. Qed.

Lemma keeps_modify I f (Q : unit -> Prop) :
  (forall s, I s -> I (f s)) -> Q tt -> keeps I (modify f) Q.
Proof. intros H Hq s Hs. cbn. split; auto. Qed.

Lemma keeps_emit I e (Q : unit -> Prop) : Q tt -> keeps I (emit e) Q.
Proof. intros H s Hs. cbn. split; auto. Qed.

Lemma keeps_log I msg (Q : unit -> Prop) : Q tt -> keeps I (log msg) Q.
Proof. apply keeps_emit. Qed.

Lemma keeps_lift {A} I (x : Exc A) (Q : A -> Prop) :
  (forall a, x = Ok a -> Q a) -> keeps I (lift x) Q.
Proof. intros H s Hs. split; [exact Hs|]. cbn. destruct x; auto. Qed.

Lemma keeps_raise {A} I e (Q : A -> Prop) : keeps I (raise e) Q.
Proof. intros s Hs. cbn. split; auto. Qed.

Lemma keeps_try {A} I (m : M A) h (Q : A -> Prop) :
  keeps I m Q -> (forall e, keeps I (h e) Q) -> keeps I (try_except m h) Q.
Proof.
  intros Hm Hh s Hs. specialize (Hm s Hs). unfold try_except.
  destruct (m s) as [[s1 t1] [a|e]]; cbn in *; [exact Hm|].
  destruct Hm as [H1 _]. specialize (Hh e s1 H1).
  destruct (h e s1) as [[s2 t2] r]. exact Hh.
Qed.

Lemma keeps_sleep I t (Q : unit -> Prop) : Q tt -> keeps I (py_sleep t) Q.
Proof.
  intros H. unfold py_sleep. destruct (Qlt_bool t 0);
    [apply keeps_raise|apply keeps_emit; exact H].
Qed.

Lemma keeps_weaken {A} I (m : M A) (Q Q' : A -> Prop) :
  keeps I m Q -> (forall a, Q a -> Q' a) -> keeps I m Q'.
Proof.
  intros Hm HQ s Hs. specialize (Hm s Hs).
  destruct (snd (m s)); destruct Hm; auto.
Qed.

Create HintDb keeps_db.
#[local] Hint Resolve keeps_ret keeps_emit keeps_log keeps_raise keeps_sleep : keeps_db.

Section Invariant.

Variable I : Gstate -> Prop.
Hypothesis I_set_cap : forall c s, I s -> I (set_cap c s).
Hypothesis I_set_model : forall n s, I s -> I (set_model n s).
Hypothesis I_publish : forall c f dl s,
  I s -> c = Z.of_nat (List.length dl) -> I (publish c f dl s).

Lemma load_model_keeps env : keeps I (load_model env) (fun _ => True).
Proof.
  unfold load_model. apply keeps_try; [|intros; apply keeps_bind with (fun _ => True); auto with keeps_db].
  destruct (negb (prototxt_exists env));
    [apply keeps_bind with (fun _ => True); auto with keeps_db|].
  destruct (negb (weights_exists env));
    [apply keeps_bind with (fun _ => True); auto with keeps_db|].
  apply keeps_bind with (fun _ => True); auto with keeps_db. intros _ _.
  apply keeps_bind with (fun _ => True); [apply keeps_lift; auto|]. intros n _.
  apply keeps_bind with (fun _ => True); [apply keeps_modify; auto|]. intros _ _.
  apply keeps_bind with (fun _ => True); auto with keeps_db.
Qed.

Definition count_matches (r : Z * list detection * frame) : Prop :=
  fst (fst r) = Z.of_nat (List.length (snd (fst r))).

Lemma detect_people_keeps cfg env fr draw_boxes thr_opt :
  keeps I (detect_people cfg env fr draw_boxes thr_opt) count_matches.
Proof.
  unfold detect_people. apply keeps_try.
  2: { intros _. apply keeps_bind with (fun _ => True); auto with keeps_db.
       intros _ _. apply keeps_ret. reflexivity. }
  unfold detect_body.
  apply keeps_bind with (fun _ => True); [apply keeps_get; auto|]. intros st _.
  apply keeps_bind with (fun _ => True).
  { destruct (model_loaded st); [auto with keeps_db|apply load_model_keeps]. }
  intros loaded _. destruct (negb loaded); [apply keeps_ret; reflexivity|].
  apply keeps_bind with (fun _ => True); [apply keeps_lift; auto|]. intros resized _.
  apply keeps_bind with (fun _ => True); [apply keeps_get; auto|]. intros st' _.
  apply keeps_bind with (fun _ => True).
  { destruct (net st'); auto with keeps_db. }
  intros n _.
  apply keeps_bind with (fun _ => True); auto with keeps_db. intros _ _.
  apply keeps_bind with (fun _ => True); [apply keeps_lift; auto|]. intros rows _.
  apply keeps_lift. intros r P.
  destruct (process_candidates_spec _ _ _ _ _ _ _ _ _ P) as [H1 H2].
  unfold count_matches. rewrite H1, H2. cbn. rewrite length_map. reflexivity.
Qed.

Lemma video_capture_keeps w src : keeps I (video_capture w src) (fun _ => True).
Proof.
  unfold video_capture. destruct (source_convertible src); [|apply keeps_raise].
  apply keeps_bind with (fun _ => True); auto with keeps_db.
Qed.

Lemma cap_read_keeps w c : keeps I (cap_read w c) (fun _ => True).
Proof. unfold cap_read. apply keeps_bind with (fun _ => True); auto with keeps_db. Qed.

Lemma cap_release_keeps c : keeps I (cap_release c) (fun _ => True).
Proof.
  unfold cap_release. apply keeps_bind with (fun _ => True); auto with keeps_db.
  intros _ _. apply keeps_modify; auto.
Qed.

Lemma release_camera_keeps : keeps I release_camera (fun _ => True).
Proof.
  unfold release_camera. apply keeps_bind with (fun _ => True); [apply keeps_get; auto|].
  intros st _. destruct (cap st); auto with keeps_db.
  apply keeps_bind with (fun _ => True); [apply cap_release_keeps|].
  intros _ _. apply keeps_modify; auto.
Qed.

Lemma try_indices_keeps cfg w l : keeps I (try_indices cfg w l) (fun _ => True).
Proof.
  induction l as [|i rest IH]; cbn [try_indices].
  - apply keeps_bind with (fun _ => True); auto with keeps_db.
  - apply keeps_bind with (fun _ => True); auto with keeps_db. intros _ _.
    apply keeps_bind with (fun _ => True); [apply video_capture_keeps|]. intros c _.
    apply keeps_bind with (fun _ => True); [apply keeps_modify; auto|]. intros _ _.
    destruct (cap_opened c); [|exact IH].
    do 3 (apply keeps_bind with (fun _ => True); [auto with keeps_db|intros _ _]).
    apply keeps_bind with (fun _ => True); [apply cap_read_keeps|]. intros r _.
    destruct r.
    + apply keeps_bind with (fun _ => True); auto with keeps_db.
    + apply keeps_bind with (fun _ => True); [apply cap_release_keeps|]. intros _ _.
      apply keeps_bind with (fun _ => True); auto with keeps_db.
Qed.

Lemma initialize_camera_keeps cfg w : keeps I (initialize_camera cfg w) (fun _ => True).
Proof.
  unfold initialize_camera. destruct (CLOUD_MODE cfg).
  { apply keeps_bind with (fun _ => True); auto with keeps_db. }
  apply keeps_bind with (fun _ => True); [apply keeps_get; auto|]. intros st _.
  destruct (cap_is_open (cap st)); [auto with keeps_db|].
  apply keeps_try.
  { destruct (py_int_of_string (CAMERA_SOURCE cfg));
      [apply try_indices_keeps|auto with keeps_db]. }
  intros e. destruct e; auto with keeps_db.
  apply keeps_bind with (fun _ => True); auto with keeps_db. intros _ _.
  apply keeps_bind with (fun _ => True); [apply video_capture_keeps|]. intros c _.
  apply keeps_bind with (fun _ => True); [apply keeps_modify; auto|]. intros _ _.
  destruct (cap_opened c); apply keeps_bind with (fun _ => True); auto with keeps_db.
Qed.

Lemma capture_iter_keeps cfg w : keeps I (capture_iter cfg w) (fun _ => True).
Proof.
  unfold capture_iter. destruct (CLOUD_MODE cfg).
  - apply keeps_bind with (fun _ => True).
    { apply keeps_modify; [intros s Hs; apply I_publish; [exact Hs|reflexivity]|trivial]. }
    intros _ _. apply keeps_bind with (fun _ => True); auto with keeps_db.
  - apply keeps_bind with (fun _ => True); [apply keeps_get; auto|]. intros st _.
    apply keeps_bind with (fun _ => True).
    { destruct (cap_is_open (cap st)); [auto with keeps_db|apply initialize_camera_keeps]. }
    intros ok _. destruct (negb ok); [auto with keeps_db|].
    apply keeps_bind with (fun _ => True); [apply keeps_get; auto|]. intros st1 _.
    apply keeps_bind with (fun _ => True); [destruct (cap st1); auto with keeps_db|].
    intros c _.
    apply keeps_bind with (fun _ => True); [apply cap_read_keeps|]. intros r _.
    destruct r as [fr|].
    + apply keeps_bind with (fun _ => True).
      { apply keeps_try; [|intros; auto with keeps_db].
        apply keeps_bind with count_matches; [apply detect_people_keeps|].
        intros [[count dl] af] Hc.
        apply keeps_bind with (fun _ => True); auto with keeps_db.
        apply keeps_modify; [intros s Hs; apply I_publish; [exact Hs|exact Hc]|trivial]. }
      intros _ _.
      apply keeps_bind with (fun _ => True); [apply keeps_lift; auto|].
      intros d _. auto with keeps_db.
    + apply keeps_bind with (fun _ => True); auto with keeps_db. intros _ _.
      apply keeps_bind with (fun _ => True); [apply release_camera_keeps|].
      intros _ _. auto with keeps_db.
Qed.

Lemma run_capture_keeps cfg ws : keeps I (run_capture cfg ws) (fun _ => True).
Proof.
  induction ws as [|w ws IH]; cbn [run_capture]; [auto with keeps_db|].
  destruct (w_stop w); [auto with keeps_db|].
  apply keeps_bind with (fun _ => True); [apply capture_iter_keeps|]. intros _ _. exact IH.
Qed.

End Invariant.

(** The capture loop never writes [is_running] or the stop event: over any
    run of iterations, also one ending in an exception, both keep the values
    they had when it started (only [start] and [stop] change them). *)
Theorem capture_loop_keeps_run_flags (cfg : config) (ws : list world) (st : Gstate) :
  is_running (fst (fst (run_capture cfg ws st))) = is_running st /\
  stop_event (fst (fst (run_capture cfg ws st))) = stop_event st.
Proof.
  refine (proj1 (run_capture_keeps
                   (fun s => is_running s = is_running st /\ stop_event s = stop_event st)
                   _ _ _ cfg ws st (conj eq_refl eq_refl)));
    intros; assumption.
Qed.

(** The shared count always equals the number of shared detections: it holds
    initially, and every iteration of the capture loop (camera or cloud mode,
    inference error or not, and also one that raises) keeps it. *)
Theorem capture_loop_count_matches_detections (cfg : config) (ws : list world)
    (st : Gstate) :
  latest_count init_state = Z.of_nat (List.length (latest_detections init_state)) /\
  (latest_count st = Z.of_nat (List.length (latest_detections st)) ->
   let s' := fst (fst (run_capture cfg ws st)) in
   latest_count s' = Z.of_nat (List.length (latest_detections s'))).
Proof.
  split; [reflexivity|]. intro H.
  refine (proj1 (run_capture_keeps
               (fun s => latest_count s = Z.of_nat (List.length (latest_detections s)))
               _ _ _ cfg ws st H)).
  - intros c s Hs. exact Hs.
  - intros n s Hs. exact Hs.
  - intros c f dl s _ Hc. exact Hc.
Qed.

(** Once the network is loaded the capture loop never unloads it, and
    whenever [model_loaded] is set the network is present: both hold over any
    run of the loop that starts with them (as the initial state does). *)
Theorem capture_loop_model_stays_loaded (cfg : config) (ws : list world) (st : Gstate) :
  let s' := fst (fst (run_capture cfg ws st)) in
  (model_loaded st = true -> net st <> None) ->
  (model_loaded s' = true -> net s' <> None) /\
  (model_loaded st = true -> model_loaded s' = true).
Proof.
  intros s' Hn. split.
  - refine (proj1 (run_capture_keeps (fun s => model_loaded s = true -> net s <> None)
                     _ _ _ cfg ws st Hn)).
    + intros c s Hs. exact Hs.
    + intros n s _ _. discriminate.
    + intros c f dl s Hs _. exact Hs.
  - intro HL.
    refine (proj1 (run_capture_keeps (fun s => model_loaded s = true)
                     _ _ _ cfg ws st HL)).
    + intros c s Hs. exact Hs.
    + intros n s _. reflexivity.
    + intros c f dl s Hs _. exact Hs.
Qed.

(** Once a frame has been published, [latest_frame] is never None again:
    neither the capture loop (any run) nor the frame generator (any run, for
    a positive frame rate) clears it. *)
Theorem published_frame_persists (cfg : config) (ws : list world)
    (gws : list gen_world) (st : Gstate) :
  latest_frame st <> None ->
  latest_frame (fst (fst (run_capture cfg ws st))) <> None /\
  (0 < CAMERA_FPS cfg -> latest_frame (fst (fst (run_gen cfg gws st))) <> None).
Proof.
  intro H. split.
  - refine (proj1 (run_capture_keeps (fun s => latest_frame s <> None)
                     _ _ _ cfg ws st H)).
    + intros c s Hs. exact Hs.
    + intros n s Hs. exact Hs.
    + intros c f dl s _ _. discriminate.
  - intro Hfps. revert st H. induction gws as [|gw gws IH]; intros st H; [exact H|].
    destruct (gen_iter_shape cfg gw st Hfps) as (s1 & tr & E & _ & L & _).
    cbn [run_gen]. unfold bind. rewrite E.
    assert (H1 : latest_frame s1 <> None).
    { rewrite L. unfold frame_seen. destruct (g_publish gw) as [[[c f] dl]|];
        [discriminate|exact H]. }
    specialize (IH s1 H1). destruct (run_gen cfg gws s1) as [[s2 t2] r2]. exact IH.
Qed.

(** ** The /api/count route *)


(** A stored [crowd_threshold] that [int()] rejects (such as "ten" or
    "10.5") makes [/api/count] answer 500 with the ValueError and log
    nothing (the session is rolled back); the worker thread has been started
    all the same. *)
Theorem count_route_bad_threshold (THRESHOLD : Z) (now : string) (d : db)
    (s : Gstate) (v : pystr) :
  setting_value (settings_rows d) (pstr "crowd_threshold") = Some v ->
  py_int_of_string v = None ->
  let '(s', _, r) := count_route THRESHOLD now d s in
  r = Ok (d, CountError ValueError) /\ is_running s' = true /\
  shared_triple s' = shared_triple s.
Proof.
  intros Hs Hv.
  unfold count_route, try_except, bind, camera.get_count, camera.get_detections,
    get_count, get_detections, get, ret, raise.
  rewrite Hs, Hv.
  destruct s as [cp lc lf ld [|] se nt ml]; cbn; repeat split; reflexivity.
Qed.

(** ** Witnesses of the further properties *)

Definition loaded_state : Gstate :=
  mkG None 0 None [] false false (Some (mkNet 0)) true.

(** The crossed-box network with the model files gone. *)
Definition crossed_box_no_files : engine_env :=
  mkEngine false false (Raise CvError) (forward crossed_box_env).

Lemma detect_people_loaded_no_reload_witness :
  model_loaded loaded_state = true /\
  detect_people default_cfg crossed_box_no_files (mkFrame 480 640 1 []) true None
    loaded_state =
  detect_people default_cfg crossed_box_env (mkFrame 480 640 1 []) true None loaded_state.
Proof.
  split; [reflexivity|].
  exact (proj1 (detect_people_loaded_no_reload default_cfg crossed_box_env
                  (mkFrame 480 640 1 []) true None loaded_state eq_refl)
           crossed_box_no_files eq_refl).
Defined.

Lemma detect_people_empty_frame_witness :
  model_loaded loaded_state = true /\ height (mkFrame 0 640 1 []) = 0 /\
  detect_people default_cfg crossed_box_env (mkFrame 0 640 1 []) true None loaded_state =
    (loaded_state, [EvLog "Error in detection"], Ok (0, [], mkFrame 0 640 1 [])).
Proof.
  split; [reflexivity|]. split; [reflexivity|].
  exact (detect_people_empty_frame default_cfg crossed_box_env (mkFrame 0 640 1 [])
           true None loaded_state eq_refl (or_introl eq_refl)).
Defined.


(** An RTSP camera source. *)
Definition rtsp_cfg : config :=
  mkConfig (Fin (1 # 2)) (pstr "rtsp://192.168.1.10/stream") 640 480 30 true false.

Lemma initialize_camera_path_source_witness :
  In 47 (CAMERA_SOURCE rtsp_cfg) /\
  py_int_of_string (CAMERA_SOURCE rtsp_cfg) = None.
Proof.
  split; [cbn; tauto|].
  exact (proj1 (initialize_camera_path_source rtsp_cfg working_world init_state 47
                  ltac:(cbn; tauto) eq_refl eq_refl eq_refl eq_refl)).
Defined.

Lemma generator_starts_worker_once_witness :
  0 < CAMERA_FPS default_cfg /\
  thread_starts (snd (fst (run_gen default_cfg [idle_poll; idle_poll; first_publish]
                             init_state))) = 1%nat.
Proof.
  assert (H : 0 < CAMERA_FPS default_cfg) by (cbn; lia).
  split; [exact H|].
  exact (generator_starts_worker_once default_cfg [idle_poll; idle_poll; first_publish]
           init_state H).
Defined.

Lemma capture_loop_model_stays_loaded_witness :
  (model_loaded init_state = true -> net init_state <> None) /\
  (model_loaded (fst (fst (run_capture default_cfg [working_world; working_world]
                             init_state))) = true ->
   net (fst (fst (run_capture default_cfg [working_world; working_world]
                    init_state))) <> None).
Proof.
  assert (H : model_loaded init_state = true -> net init_state <> None)
    by (cbn; discriminate).
  split; [exact H|].
  exact (proj1 (capture_loop_model_stays_loaded default_cfg
                  [working_world; working_world] init_state H)).
Defined.

(** The state after the worker published a first frame. *)
Definition published_state : Gstate :=
  publish 0 (mkFrame 480 640 1 []) [] init_state.

Lemma published_frame_persists_witness :
  latest_frame published_state <> None /\
  latest_frame (fst (fst (run_capture default_cfg [working_world; stopped_world]
                            published_state))) <> None /\
  latest_frame (fst (fst (run_gen default_cfg [idle_poll; idle_poll] published_state)))
    <> None.
Proof.
  assert (H : latest_frame published_state <> None) by (cbn; discriminate).
  assert (Hf : 0 < CAMERA_FPS default_cfg) by (cbn; lia).
  split; [exact H|]. split.
  - exact (proj1 (published_frame_persists default_cfg [working_world; stopped_world]
                    [idle_poll; idle_poll] published_state H)).
  - exact (proj2 (published_frame_persists default_cfg [working_world; stopped_world]
                    [idle_poll; idle_poll] published_state H) Hf).
Defined.

Definition db_threshold_ten : db := mkDb [(pstr "crowd_threshold", pstr "ten")] [] [].
Definition db_threshold_fs3 : db := mkDb [(pstr "crowd_threshold", [0x1c; 0x33])] [] [].

(** Five people seen by the worker. *)
Definition five_people_state : Gstate :=
  mkG None 5 None [] true false None false.


Lemma count_route_bad_threshold_witness :
  setting_value (settings_rows db_threshold_ten) (pstr "crowd_threshold") = Some (pstr "ten") /\
  py_int_of_string (pstr "ten") = None /\
  snd (count_route 10 "t0" db_threshold_ten init_state) =
    Ok (db_threshold_ten, CountError ValueError) /\
  py_int_of_string [0x1c; 0x33] = None /\
  snd (count_route 10 "t0" db_threshold_fs3 five_people_state) =
    Ok (db_threshold_fs3, CountError ValueError).
Proof.
  split; [reflexivity|]. split; [reflexivity|]. split.
  - exact (proj1 (count_route_bad_threshold 10 "t0" db_threshold_ten init_state (pstr "ten")
                    eq_refl eq_refl)).
  - split; [reflexivity|].
    exact (proj1 (count_route_bad_threshold 10 "t0" db_threshold_fs3 five_people_state
                    [0x1c; 0x33] eq_refl eq_refl)).
Defined.

Lemma capture_loop_count_matches_detections_witness :
  latest_count init_state = Z.of_nat (List.length (latest_detections init_state)) /\
  latest_count (fst (fst (run_capture default_cfg [working_world] init_state))) =
  Z.of_nat (List.length (latest_detections
                           (fst (fst (run_capture default_cfg [working_world] init_state))))).
Proof.
  assert (H : latest_count init_state = Z.of_nat (List.length (latest_detections init_state)))
    by reflexivity.
  split; [exact H|].
  exact (proj2 (capture_loop_count_matches_detections default_cfg [working_world]
                  init_state) H).
Defined.
